(** * Portkey benchmark: request executor, preflight, worker pool, statistics

    A shallow embedding of [benchmark.js] (class [PortkeyBenchmark] and the
    [main] entry point) and the properties of its specification.

    Conventions of the embedding.
    - A JavaScript number is an exact rational [Q]: the times are whole
      milliseconds and the statistics are sums, quotients and products of
      them, taken without rounding. The one division whose divisor may be
      zero, the percentage of [generateReport], produces a [jsnum], which
      adds NaN and the two infinities. Equalities between numbers are stated
      with [==] where a quotient is computed and with [=] where the program
      returns a stored value.
    - [undefined] and [null] are [None]; truthiness ([x ? a : b], [x || d],
      [x && y]) is written out with [truthy].
    - [Date.now()], the completer (the OpenAI client), the response headers
      and the built-in [parseFloat] are inputs: every function takes the
      clock readings and the outcome of the calls it makes. The numbers of
      the configuration are numbers or absent.
    - The language is single threaded: a worker runs without interruption
      from one [await] to the next, so the pool is a transition system whose
      steps are these segments, taken by the workers in any order.
    - Of the console output only the line that announces a request is kept
      (as the log [started]); what [printReport] prints is reduced to the
      table it chooses, and [saveReport] is left out. *)

From Stdlib Require Import ZArith QArith Qround Lia Lqa String Ascii List.
From stdpp Require Import base tactics option list.
From Stdlib Require Import Sorted.
Import ListNotations.

Local Open Scope string_scope.
Local Open Scope list_scope.

(** ** JavaScript values *)

(** [x] used as a condition, for a number: everything but 0 (NaN does not
    occur among the finite numbers). *)
Definition truthy (q : Q) : bool := negb (Qeq_bool q 0).

(** [x] used as a condition, for a number that may be [undefined]. *)
Definition truthy_opt (v : option Q) : bool :=
  match v with
  | Some q => truthy q
  | None => false
  end.

(** [x || d] for numbers. *)
Definition or_num (x d : Q) : Q := if truthy x then x else d.

(** [v || d] for a number that may be [undefined]. *)
Definition or_default (v : option Q) (d : Q) : Q :=
  match v with
  | Some q => or_num q d
  | None => d
  end.

(** [s || d] for a string that may be [undefined]; the empty string is falsy. *)
Definition or_string (v : option string) (d : string) : string :=
  match v with
  | Some EmptyString => d
  | Some s => s
  | None => d
  end.

(** [a >= b], [a > b] on numbers. *)
Definition num_ge (a b : Q) : bool := Qle_bool b a.
Definition num_gt (a b : Q) : bool := negb (Qle_bool a b).

(** A natural number (an array length, the request counter) as a number. *)
Definition num_of_nat (n : nat) : Q := inject_Z (Z.of_nat n).

(** The result of a division whose divisor may be zero. *)
Inductive jsnum : Type :=
  | JNaN
  | JPosInf
  | JNegInf
  | JFin (q : Q).

(** [a / b]: the quotient, or NaN for 0/0, or an infinity with the sign of
    [a] for a division of a non-zero number by zero. *)
Definition js_div (a b : Q) : jsnum :=
  if Qeq_bool b 0 then
    if Qeq_bool a 0 then JNaN
    else if Qle_bool 0 a then JPosInf else JNegInf
  else JFin (a / b).

(** [x * k] for a positive constant [k]. *)
Definition js_scale (x : jsnum) (k : Q) : jsnum :=
  match x with
  | JFin q => JFin (q * k)
  | other => other
  end.

Definition js_is_finite (x : jsnum) : bool :=
  match x with
  | JFin _ => true
  | _ => false
  end.

(** [s.includes(sub)] *)
Definition includes (s sub : string) : bool :=
  match String.index 0 sub s with
  | Some _ => true
  | None => false
  end.

Definition lower_ascii (c : ascii) : ascii :=
  let n := nat_of_ascii c in
  if andb (Nat.leb 65 n) (Nat.leb n 90) then ascii_of_nat (n + 32) else c.

(** [s.toLowerCase()] on the ASCII range. *)
Fixpoint toLowerCase (s : string) : string :=
  match s with
  | EmptyString => EmptyString
  | String c rest => String (lower_ascii c) (toLowerCase rest)
  end.

(** ** Data model *)

Inductive Provider : Type := OpenAI | Portkey.

Record Message : Type := { role : string; content : string }.

(** [config.prompt]: a string, an array of messages, absent ([undefined] or
    [null]), or some other value, one that counts as true in a condition
    (an object, say). *)
Inductive Prompt : Type :=
  | PString (s : string)
  | PMessages (ms : list Message)
  | PAbsent
  | POther.

Record Config : Type := {
  mode : option string;
  prompt : Prompt;
  model : option string;
  maxTokens : option Q;
  temperature : option Q;
  concurrency : option Q;
  maxRequests : option Q;
  testDuration : option Q;
  openaiApiKey : option string;
  portkeyApiKey : option string
}.

Inductive ErrorType : Type :=
  | Unknown
  | RateLimit
  | Timeout
  | ConnectionRefused.

(** The object [makeRequest] returns. [error] and [errorType] exist on the
    failure object only. *)
Record RequestRecord : Type := {
  provider : Provider;
  totalTime : Q;
  openaiProcessingTime : option Q;
  networkLatency : option Q;
  timestamp : string;
  success : bool;
  error : option string;
  errorType : option ErrorType;
  tokensUsed : Q;
  promptTokens : Q;
  completionTokens : Q
}.

(** ** The completer and its responses *)

(** The headers of a raw response, as the program reaches them: through
    [headers.get] when the object has one, else by property access; and
    through [headers.entries()] when the object has it. *)
Record Headers : Type := {
  headers_get : option (string -> option string);
  headers_field : string -> option string;
  headers_entries : option (list (string * string))
}.

Record Usage : Type := {
  total_tokens : option Q;
  prompt_tokens : option Q;
  completion_tokens : option Q
}.

Record RawResponse : Type := { headers : option Headers }.

(** What [create(...).withResponse()] resolves to. *)
Record WithResponse : Type := {
  data_usage : option Usage;
  response : option RawResponse
}.

(** The call resolves, or it rejects with an [Error], of which the program
    reads the [message]. *)
Inductive CompleterOutcome : Type :=
  | Resolved (r : WithResponse)
  | Rejected (message : string).

(** The argument of [client.chat.completions.create]. *)
Record ChatRequest : Type := {
  req_model : string;
  req_messages : list Message;
  req_max_tokens : Q;
  req_temperature : Q
}.

Definition Client : Type := ChatRequest -> CompleterOutcome.

(** ** Request executor *)

Definition processingTimeHeaders : list string :=
  [ "openai-processing-ms";
    "x-openai-processing-ms";
    "openai-processing-time-ms";
    "x-processing-time-ms";
    "processing-time-ms";
    "x-request-time-ms";
    "x-processing-time";
    "x-request-time";
    "request-time";
    "processing-time" ].

Section Executor.

(** The built-in [parseFloat] on the values of the headers: a finite
    number, or [None] for NaN. *)
Variable parseFloat : string -> option Q.

(** [const timeMs = parseFloat(value); if (!isNaN(timeMs) && timeMs > 0)] *)
Definition positiveTime (value : string) : option Q :=
  match parseFloat value with
  | Some timeMs => if num_gt timeMs 0 then Some timeMs else None
  | None => None
  end.

(** [headers.get ? headers.get(header) : headers[header]] *)
Definition headerValue (h : Headers) (name : string) : option string :=
  match headers_get h with
  | Some get => get name
  | None => headers_field h name
  end.

(** The first loop of [extractOpenAIProcessingTime]. *)
Fixpoint probeNames (h : Headers) (names : list string) : option Q :=
  match names with
  | [] => None
  | name :: rest =>
      match headerValue h name with
      | Some value =>
          match positiveTime value with
          | Some timeMs => Some timeMs
          | None => probeNames h rest
          end
      | None => probeNames h rest
      end
  end.

(** The case-insensitive search over [headers.entries()]. *)
Fixpoint scanEntries (es : list (string * string)) : option Q :=
  match es with
  | [] => None
  | (key, value) :: rest =>
      let lowerKey := toLowerCase key in
      if andb (includes lowerKey "processing")
              (orb (includes lowerKey "ms") (includes lowerKey "time"))
      then match positiveTime value with
           | Some timeMs => Some timeMs
           | None => scanEntries rest
           end
      else scanEntries rest
  end.

Definition extractOpenAIProcessingTime (resp : option RawResponse) : option Q :=
  match resp with
  | None => None
  | Some raw =>
      match headers raw with
      | None => None
      | Some h =>
          match probeNames h processingTimeHeaders with
          | Some timeMs => Some timeMs
          | None =>
              match headers_entries h with
              | Some es => scanEntries es
              | None => None
              end
          end
      end
  end.

(** The classification of the [catch] branch of [makeRequest]. *)
Definition classifyError (message : string) : ErrorType :=
  if orb (includes message "rate limit") (includes message "429") then RateLimit
  else if orb (includes message "timeout") (includes message "ECONNRESET") then Timeout
  else if includes message "ECONNREFUSED" then ConnectionRefused
  else Unknown.

(** The object returned from the [catch] branch. *)
Definition failureRecord (p : Provider) (total : Q) (stamp message : string)
  : RequestRecord :=
  {| provider := p;
     totalTime := total;
     openaiProcessingTime := None;
     networkLatency := None;
     timestamp := stamp;
     success := false;
     error := Some message;
     errorType := Some (classifyError message);
     tokensUsed := 0;
     promptTokens := 0;
     completionTokens := 0 |}.

(** [responseData.usage?.f || 0] *)
Definition usageField (u : option Usage) (f : Usage -> option Q) : Q :=
  match u with
  | Some us => or_default (f us) 0
  | None => 0
  end.

(** [openaiProcessingTime ? totalTime - openaiProcessingTime : null] *)
Definition latencyOf (total : Q) (processing : option Q) : option Q :=
  match processing with
  | Some t => if truthy t then Some (total - t)%Q else None
  | None => None
  end.

(** [makeRequest(client, prompt, provider)]. [startTime] and [endTime] are
    the two readings of [Date.now()], [stamp] is [new Date().toISOString()]. *)
Definition makeRequest (cfg : Config) (client : Client) (pr : Prompt)
    (p : Provider) (startTime endTime : Z) (stamp : string) : RequestRecord :=
  let total := inject_Z (endTime - startTime) in
  let call (messages : list Message) :=
    match client {| req_model := or_string (model cfg) "gpt-3.5-turbo";
                    req_messages := messages;
                    req_max_tokens := or_default (maxTokens cfg) 100;
                    req_temperature := or_default (temperature cfg) (7 # 10)%Q |} with
    | Resolved r =>
        let processing := extractOpenAIProcessingTime (response r) in
        {| provider := p;
           totalTime := total;
           openaiProcessingTime := processing;
           networkLatency := latencyOf total processing;
           timestamp := stamp;
           success := true;
           error := None;
           errorType := None;
           tokensUsed := usageField (data_usage r) total_tokens;
           promptTokens := usageField (data_usage r) prompt_tokens;
           completionTokens := usageField (data_usage r) completion_tokens |}
    | Rejected message => failureRecord p total stamp message
    end in
  match pr with
  | PString s => call [ {| role := "user"; content := s |} ]
  | PMessages ms => call ms
  | _ => failureRecord p total stamp
           "Prompt must be either a string or an array of message objects"
  end.

End Executor.

(** ** Errors *)

(** The errors the program throws, by the message template of the [throw]. *)
Inductive BenchError : Type :=
  | InvalidMode (m : string)
  | AllProvidersFailed (failed : list string)
  | SomeProvidersFailed (failed : list string)
  | MissingPrompt
  | MissingKey (key m : string).

(** [names.join(sep)] *)
Fixpoint join (sep : string) (names : list string) : string :=
  match names with
  | [] => ""
  | [x] => x
  | x :: rest => x ++ sep ++ join sep rest
  end.

Definition errorMessage (e : BenchError) : string :=
  match e with
  | InvalidMode m =>
      "Invalid mode: " ++ m ++ ". Supported modes: comparison, loadtest"
  | AllProvidersFailed failed =>
      "All enabled providers failed (" ++ join ", " failed
        ++ "). Please check your configuration and API keys."
  | SomeProvidersFailed failed =>
      "Some providers failed: " ++ join ", " failed ++ ". Aborting test..."
  | MissingPrompt => "Missing prompt in config"
  | MissingKey key m => key ++ " is required for " ++ m ++ " mode"
  end.

(** ** Provider selector *)

(** [this.config.mode || 'comparison'] *)
Definition modeOf (cfg : Config) : string := or_string (mode cfg) "comparison".

Record Flags : Type := {
  shouldTestOpenAI : bool;
  shouldTestPortkey : bool
}.

(** The two settings [determineProvidersFromMode] makes. *)
Definition bothProviders : Flags :=
  {| shouldTestOpenAI := true; shouldTestPortkey := true |}.

Definition portkeyOnly : Flags :=
  {| shouldTestOpenAI := false; shouldTestPortkey := true |}.

Definition determineProvidersFromMode (cfg : Config) : BenchError + Flags :=
  let m := modeOf cfg in
  if String.eqb m "comparison" then inr bothProviders
  else if String.eqb m "loadtest" then inr portkeyOnly
  else inl (InvalidMode m).

(** [new PortkeyBenchmark(config)]: the part that can fail. *)
Definition construct (cfg : Config) : BenchError + Flags :=
  determineProvidersFromMode cfg.

(** ** Preflight validator *)

(** [makeRequest] awaited inside [try]: it resolves to a record, or the
    [catch] receives an error with the given message. *)
Inductive ProbeOutcome : Type :=
  | Returned (r : RequestRecord)
  | Threw (message : string).

(** [testResults.x.success], also for the object built in [catch]. *)
Definition probeSuccess (o : ProbeOutcome) : bool :=
  match o with
  | Returned r => success r
  | Threw _ => false
  end.

(** [testResults.x.openaiProcessingTime !== null]; the object built in
    [catch] has no such field, and [undefined !== null]. *)
Definition probeHasTime (o : ProbeOutcome) : bool :=
  match o with
  | Returned r => match openaiProcessingTime r with Some _ => true | None => false end
  | Threw _ => true
  end.

(** The warning printed when processing times are missing. *)
Inductive Warning : Type :=
  | ComparisonLessAccurate (missing : list string)
  | LatencyLimited (enabledProvider : string).

Record PreflightResult : Type := {
  openaiEnabled : bool;
  portkeyEnabled : bool;
  testResults_openai : option ProbeOutcome;
  testResults_portkey : option ProbeOutcome;
  warning : option Warning
}.

(** [prompt.substring(0, 100) + (prompt.length > 100 ? '...' : '')] for a
    string, the prompt itself otherwise. *)
Definition testPrompt (cfg : Config) : Prompt :=
  match prompt cfg with
  | PString s =>
      PString (substring 0 100 s ++ (if Nat.ltb 100 (String.length s) then "..." else ""))
  | other => other
  end.

(** [testResults.x && testResults.x.success] as a condition. *)
Definition succeeded (t : option ProbeOutcome) : bool :=
  match t with
  | Some o => probeSuccess o
  | None => false
  end.

(** [xSuccess && testResults.x.openaiProcessingTime !== null] *)
Definition hasProcessingTime (t : option ProbeOutcome) : bool :=
  match t with
  | Some o => andb (probeSuccess o) (probeHasTime o)
  | None => false
  end.

(** [runPreflightTest()]. [probe p pr] is the outcome of
    [this.makeRequest(client, pr, p)]. The result is the list of the requests
    made, in order, and either the error thrown or the value returned. *)
Definition runPreflightTest (cfg : Config) (fl : Flags)
    (probe : Provider -> Prompt -> ProbeOutcome)
  : list (Provider * Prompt) * (BenchError + PreflightResult) :=
  let tp := testPrompt cfg in
  let t_openai := if shouldTestOpenAI fl then Some (probe OpenAI tp) else None in
  let t_portkey := if shouldTestPortkey fl then Some (probe Portkey tp) else None in
  let calls := (if shouldTestOpenAI fl then [(OpenAI, tp)] else [])
            ++ (if shouldTestPortkey fl then [(Portkey, tp)] else []) in
  let openaiSuccess := succeeded t_openai in
  let portkeySuccess := succeeded t_portkey in
  let enabledProviders :=
    (if shouldTestOpenAI fl then ["OpenAI"] else [])
    ++ (if shouldTestPortkey fl then ["Portkey"] else []) in
  let failedProviders :=
    (if andb (shouldTestOpenAI fl) (negb openaiSuccess) then ["OpenAI"] else [])
    ++ (if andb (shouldTestPortkey fl) (negb portkeySuccess) then ["Portkey"] else []) in
  if Nat.eqb (length failedProviders) (length enabledProviders) then
    (calls, inl (AllProvidersFailed failedProviders))
  else if Nat.ltb 0 (length failedProviders) then
    (calls, inl (SomeProvidersFailed failedProviders))
  else
    let warn :=
      if String.eqb (modeOf cfg) "comparison" then
        let openaiHas := hasProcessingTime t_openai in
        let portkeyHas := hasProcessingTime t_portkey in
        if andb (andb (shouldTestOpenAI fl) (shouldTestPortkey fl))
                (orb (negb openaiHas) (negb portkeyHas))
        then Some (ComparisonLessAccurate
                     ((if openaiHas then [] else ["OpenAI"])
                      ++ (if portkeyHas then [] else ["Portkey"])))
        else None
      else
        let has := if shouldTestOpenAI fl then hasProcessingTime t_openai
                   else hasProcessingTime t_portkey in
        if has then None
        else Some (LatencyLimited (if shouldTestOpenAI fl then "OpenAI" else "Portkey")) in
    (calls,
     inr {| openaiEnabled := andb (shouldTestOpenAI fl) openaiSuccess;
            portkeyEnabled := andb (shouldTestPortkey fl) portkeySuccess;
            testResults_openai := t_openai;
            testResults_portkey := t_portkey;
            warning := warn |}).

(** *** The outcome of the probes, for the properties *)

(** Whether the probe of provider [p] was made and failed. *)
Definition probeFailed (cfg : Config) (fl : Flags)
    (probe : Provider -> Prompt -> ProbeOutcome) (p : Provider) : bool :=
  match p with
  | OpenAI => andb (shouldTestOpenAI fl) (negb (probeSuccess (probe OpenAI (testPrompt cfg))))
  | Portkey => andb (shouldTestPortkey fl) (negb (probeSuccess (probe Portkey (testPrompt cfg))))
  end.

(** The display names of the providers whose probe failed, direct first. *)
Definition failedNames (cfg : Config) (fl : Flags)
    (probe : Provider -> Prompt -> ProbeOutcome) : list string :=
  (if probeFailed cfg fl probe OpenAI then ["OpenAI"] else [])
  ++ (if probeFailed cfg fl probe Portkey then ["Portkey"] else []).

(** The providers whose probe failed are exactly the enabled ones. *)
Definition allActiveFailed (cfg : Config) (fl : Flags)
    (probe : Provider -> Prompt -> ProbeOutcome) : bool :=
  andb (Bool.eqb (probeFailed cfg fl probe OpenAI) (shouldTestOpenAI fl))
       (Bool.eqb (probeFailed cfg fl probe Portkey) (shouldTestPortkey fl)).

(** ** Worker pool *)

(** [this.sharedState] *)
Record SharedState : Type := {
  requestCount : nat;
  shouldStop : bool;
  maxRequestsReached : bool;
  timeLimit : bool
}.

(** Where a worker of [runConcurrentRequests] stands between two segments:
    about to run the head of its loop (when first called, or when its delay
    timer fires), waiting for [Promise.all(requests)] of the request whose
    number it captured, or out of the loop. *)
Inductive WorkerState : Type :=
  | AtLoopHead
  | AwaitingResults (currentRequestNumber : nat)
  | Finished.

(** The benchmark object during the load phase. [started] is the console
    line "Worker w - Request n starting...", newest first, as the pair of
    the worker index and the request number. *)
Record PoolState : Type := {
  sharedState : SharedState;
  results_openai : list RequestRecord;
  results_portkey : list RequestRecord;
  workers : list WorkerState;
  started : list (nat * nat)
}.

(** One segment of one worker: [ev_now] is the reading of [Date.now()] at
    the head of the loop, [ev_record p] the record the request of this
    round to provider [p] resolves to. *)
Record Event : Type := {
  ev_worker : nat;
  ev_now : Z;
  ev_record : Provider -> RequestRecord
}.

(** [bound && cmp(x, bound)] for a configured bound. *)
Definition boundHit (bound : option Q) (cmp : Q -> Q -> bool) (x : Q) : bool :=
  match bound with
  | Some b => andb (truthy b) (cmp x b)
  | None => false
  end.

(** The number of iterations of [for (let i = 0; i < concurrency; i++)]. *)
Definition workerCount (cfg : Config) : nat :=
  match concurrency cfg with
  | Some c => Z.to_nat (Qceiling c)
  | None => 0
  end.

(** [this.sharedState = {...}] of [runBenchmark], with every worker about
    to be called. *)
Definition initialPool (cfg : Config) : PoolState :=
  {| sharedState := {| requestCount := 0; shouldStop := false;
                       maxRequestsReached := false; timeLimit := false |};
     results_openai := [];
     results_portkey := [];
     workers := replicate (workerCount cfg) AtLoopHead;
     started := [] |}.

Section Pool.

Variable cfg : Config.
(** [this.openaiEnabled], [this.portkeyEnabled], and [startTime]. *)
Variables (oEnabled pEnabled : bool) (startTime : Z).

Definition setWorker (i : nat) (w : WorkerState) (s : PoolState) : PoolState :=
  {| sharedState := sharedState s;
     results_openai := results_openai s;
     results_portkey := results_portkey s;
     workers := <[i := w]> (workers s);
     started := started s |}.

Definition setShared (sh : SharedState) (s : PoolState) : PoolState :=
  {| sharedState := sh;
     results_openai := results_openai s;
     results_portkey := results_portkey s;
     workers := workers s;
     started := started s |}.

(** [shouldStop = true; timeLimit = true] *)
Definition stopForTime (sh : SharedState) : SharedState :=
  {| requestCount := requestCount sh; shouldStop := true;
     maxRequestsReached := maxRequestsReached sh; timeLimit := true |}.

(** [shouldStop = true; maxRequestsReached = true] *)
Definition stopForMax (sh : SharedState) : SharedState :=
  {| requestCount := requestCount sh; shouldStop := true;
     maxRequestsReached := true; timeLimit := timeLimit sh |}.

(** [requestCount++] *)
Definition increment (sh : SharedState) : SharedState :=
  {| requestCount := S (requestCount sh); shouldStop := shouldStop sh;
     maxRequestsReached := maxRequestsReached sh; timeLimit := timeLimit sh |}.

(** The head of the loop of worker [i], up to the first [await]. *)
Definition loopHead (i : nat) (now : Z) (s : PoolState) : PoolState :=
  let sh := sharedState s in
  if shouldStop sh then setWorker i Finished s
  else
    let elapsedTime := (inject_Z (now - startTime) / 1000)%Q in
    if boundHit (testDuration cfg) num_ge elapsedTime then
      setWorker i Finished (setShared (stopForTime sh) s)
    else if boundHit (maxRequests cfg) num_ge (num_of_nat (requestCount sh)) then
      setWorker i Finished (setShared (stopForMax sh) s)
    else
      let sh1 := increment sh in
      let currentRequestNumber := requestCount sh1 in
      if boundHit (maxRequests cfg) num_gt (num_of_nat currentRequestNumber) then
        setWorker i Finished (setShared (stopForMax sh1) s)
      else
        {| sharedState := sh1;
           results_openai := results_openai s;
           results_portkey := results_portkey s;
           workers := <[i := AwaitingResults currentRequestNumber]> (workers s);
           started := (i, currentRequestNumber) :: started s |}.

(** The [requests] array of a round, resolved. *)
Definition roundResults (mk : Provider -> RequestRecord) : list RequestRecord :=
  (if oEnabled then [mk OpenAI] else []) ++ (if pEnabled then [mk Portkey] else []).

(** The destructuring of [results] into [openaiResult], [portkeyResult]. *)
Definition assignResults (results : list RequestRecord)
  : option RequestRecord * option RequestRecord :=
  if andb oEnabled pEnabled then (results !! 0, results !! 1)
  else if oEnabled then (results !! 0, None)
  else if pEnabled then (None, results !! 0)
  else (None, None).

(** [if (r) this.results.x.push(r)] *)
Definition pushResult (r : option RequestRecord) (l : list RequestRecord)
  : list RequestRecord :=
  match r with
  | Some x => l ++ [x]
  | None => l
  end.

(** From the resolution of [Promise.all(requests)] to the delay timer. *)
Definition afterResults (i : nat) (mk : Provider -> RequestRecord) (s : PoolState)
  : PoolState :=
  let '(openaiResult, portkeyResult) := assignResults (roundResults mk) in
  {| sharedState := sharedState s;
     results_openai := pushResult openaiResult (results_openai s);
     results_portkey := pushResult portkeyResult (results_portkey s);
     workers := <[i := AtLoopHead]> (workers s);
     started := started s |}.

(** One segment of the worker the event names; nothing happens for a
    worker that does not exist or has left its loop. *)
Definition step (ev : Event) (s : PoolState) : PoolState :=
  match workers s !! ev_worker ev with
  | Some AtLoopHead => loopHead (ev_worker ev) (ev_now ev) s
  | Some (AwaitingResults _) => afterResults (ev_worker ev) (ev_record ev) s
  | Some Finished => s
  | None => s
  end.

(** The pool after a sequence of segments. *)
Definition exec (evs : list Event) (s : PoolState) : PoolState :=
  fold_left (fun st ev => step ev st) evs s.

Definition reachable (s : PoolState) : Prop :=
  exists evs, s = exec evs (initialPool cfg).

(** [Promise.all(promises)] has resolved: every worker left its loop. *)
Definition allFinished (s : PoolState) : bool :=
  forallb (fun w => match w with Finished => true | _ => false end) (workers s).

End Pool.

(** ** Statistics engine *)

(** The object [calculateStats] returns. The object of the early return
    has no [successfulCount] and no [failedCount]. A percentile is [None]
    when the computation reads outside the array. *)
Record Stats : Type := {
  count : nat;
  successfulCount : option nat;
  failedCount : option nat;
  successRate : Q;
  failureRate : Q;
  avgTotalTime : Q;
  avgOpenAITime : Q;
  avgNetworkLatency : Q;
  medianTotalTime : option Q;
  p95TotalTime : option Q;
  p99TotalTime : option Q;
  minTotalTime : Q;
  maxTotalTime : Q;
  totalTokens : Q;
  avgTokensPerRequest : Q
}.

(** [l.reduce((sum, t) => sum + t, 0)] *)
Definition sum (l : list Q) : Q := fold_left Qplus l 0%Q.

(** [sum(l) / l.length] *)
Definition average (l : list Q) : Q := (sum l / num_of_nat (length l))%Q.

(** [l.length > 0 ? sum(l) / l.length : 0] *)
Definition averageOrZero (l : list Q) : Q :=
  if Nat.ltb 0 (length l) then average l else 0%Q.

Fixpoint insertSorted (x : Q) (l : list Q) : list Q :=
  match l with
  | [] => [x]
  | y :: rest => if Qle_bool x y then x :: y :: rest else y :: insertSorted x rest
  end.

(** [l.sort((a, b) => a - b)]: a stable ascending sort. *)
Definition sortAscending (l : list Q) : list Q := foldr insertSorted [] l.

(** [a[k]] for an integral number [k]. *)
Definition at_index (a : list Q) (k : Z) : option Q :=
  if Z.ltb k 0 then None else a !! Z.to_nat k.

(** The helper [calculatePercentile] of [calculateStats]. *)
Definition calculatePercentile (sortedArray : list Q) (percentile : Q) : option Q :=
  match sortedArray with
  | [] => Some 0%Q
  | [x] => Some x
  | _ =>
      let index := ((percentile / 100) * num_of_nat (length sortedArray - 1))%Q in
      let lower := Qfloor index in
      let upper := Qceiling index in
      if Z.eqb lower upper then at_index sortedArray lower
      else
        let weight := (index - inject_Z lower)%Q in
        match at_index sortedArray lower, at_index sortedArray upper with
        | Some lo, Some hi => Some (lo * (1 - weight) + hi * weight)%Q
        | _, _ => None
        end
  end.

(** The object of the early return of [calculateStats]. *)
Definition zeroStats : Stats :=
  {| count := 0;
     successfulCount := None;
     failedCount := None;
     successRate := 0;
     failureRate := 100;
     avgTotalTime := 0;
     avgOpenAITime := 0;
     avgNetworkLatency := 0;
     medianTotalTime := Some 0%Q;
     p95TotalTime := Some 0%Q;
     p99TotalTime := Some 0%Q;
     minTotalTime := 0;
     maxTotalTime := 0;
     totalTokens := 0;
     avgTokensPerRequest := 0 |}.

Definition calculateStats (results : list RequestRecord) : Stats :=
  let successfulResults := List.filter success results in
  let failedResults := List.filter (fun r => negb (success r)) results in
  if Nat.eqb (length successfulResults) 0 then zeroStats
  else
    let totalTimes := sortAscending (List.map totalTime successfulResults) in
    let openaiTimes := omap openaiProcessingTime successfulResults in
    let networkLatencies := omap networkLatency successfulResults in
    let tokens := fold_left (fun acc r => (acc + tokensUsed r)%Q) successfulResults 0%Q in
    {| count := length results;
       successfulCount := Some (length successfulResults);
       failedCount := Some (length failedResults);
       successRate :=
         (num_of_nat (length successfulResults) / num_of_nat (length results) * 100)%Q;
       failureRate :=
         (num_of_nat (length failedResults) / num_of_nat (length results) * 100)%Q;
       avgTotalTime := average totalTimes;
       avgOpenAITime := averageOrZero openaiTimes;
       avgNetworkLatency := averageOrZero networkLatencies;
       medianTotalTime := calculatePercentile totalTimes 50;
       p95TotalTime := calculatePercentile totalTimes 95;
       p99TotalTime := calculatePercentile totalTimes 99;
       minTotalTime := or_default (totalTimes !! 0) 0;
       maxTotalTime := or_default (totalTimes !! (length totalTimes - 1)) 0;
       totalTokens := tokens;
       avgTokensPerRequest := (tokens / num_of_nat (length successfulResults))%Q |}.

(** [summary.comparison] *)
Record Comparison : Type := {
  latencyOverhead : Q;
  latencyOverheadPercentage : jsnum;
  networkLatencyDiff : Q;
  successRateDiff : Q
}.

Record Summary : Type := {
  totalRequests : nat;
  openaiStats : Stats;
  portkeyStats : Stats;
  comparison : option Comparison
}.

(** The [summary] of [generateReport]. *)
Definition generateReport (cfg : Config) (openai portkey : list RequestRecord)
  : Summary :=
  let o := calculateStats openai in
  let p := calculateStats portkey in
  {| totalRequests := Nat.max (length openai) (length portkey);
     openaiStats := o;
     portkeyStats := p;
     comparison :=
       if andb (String.eqb (modeOf cfg) "comparison")
               (andb (Nat.ltb 0 (length openai)) (Nat.ltb 0 (length portkey)))
       then Some {| latencyOverhead := avgTotalTime p - avgTotalTime o;
                    latencyOverheadPercentage :=
                      js_scale (js_div (avgTotalTime p - avgTotalTime o) (avgTotalTime o)) 100;
                    networkLatencyDiff := avgNetworkLatency p - avgNetworkLatency o;
                    successRateDiff := successRate p - successRate o |}
       else None |}.

(** What [printReport] renders: the side-by-side table of comparison mode,
    which reads [summary.comparison] and fails with a TypeError when it is
    absent, or the table of the proxy's statistics. *)
Inductive Rendering : Type :=
  | ComparisonTable (c : Comparison)
  | LoadTestTable (stats : Stats)
  | RenderTypeError.

Definition printReport (cfg : Config) (s : Summary) : Rendering :=
  if String.eqb (modeOf cfg) "comparison" then
    match comparison s with
    | Some c => ComparisonTable c
    | None => RenderTypeError
    end
  else LoadTestTable (portkeyStats s).

(** ** Invariants of the pool *)

(** The sum over the workers of a weight of their state. *)
Definition total (f : WorkerState -> nat) (ws : list WorkerState) : nat :=
  foldr (fun w acc => f w + acc) 0 ws.

Definition isAwaiting (w : WorkerState) : nat :=
  match w with
  | AwaitingResults _ => 1
  | _ => 0
  end.

(** The number of workers whose requests are in flight. *)
Definition awaiting (ws : list WorkerState) : nat := total isAwaiting ws.

(** The segments a worker has left when its next look at the shared state
    tells it to stop. *)
Definition segmentsLeft (w : WorkerState) : nat :=
  match w with
  | AtLoopHead => 1
  | AwaitingResults _ => 2
  | Finished => 0
  end.

(** A bound on the segments the pool has left, when its counter cannot
    exceed [bound]. *)
Definition segmentsBound (bound : nat) (s : PoolState) : nat :=
  2 * (bound - requestCount (sharedState s)) + total segmentsLeft (workers s).

(** The stop flags: a terminal reason is set together with [shouldStop],
    at most one of them, and a worker leaves its loop after [shouldStop]. *)
Record StopInv (s : PoolState) : Prop := {
  stop_time : timeLimit (sharedState s) = true -> shouldStop (sharedState s) = true;
  stop_max : maxRequestsReached (sharedState s) = true -> shouldStop (sharedState s) = true;
  stop_one : ~ (timeLimit (sharedState s) = true /\ maxRequestsReached (sharedState s) = true);
  stop_why : shouldStop (sharedState s) = true ->
             timeLimit (sharedState s) = true \/ maxRequestsReached (sharedState s) = true;
  stop_finished : shouldStop (sharedState s) = false ->
                  Forall (fun w => w <> Finished) (workers s)
}.

(** The request numbers captured: between 1 and the counter, each once. *)
Record LogInv (s : PoolState) : Prop := {
  log_range : Forall (fun n => 1 <= n <= requestCount (sharedState s))
                     (List.map snd (started s));
  log_nodup : NoDup (List.map snd (started s))
}.

(** With an integral bound [m] on the requests: the counter stays within
    [m], reaches [m] before the flag is set, and every request counted is
    recorded or in flight. *)
Record CountInv (m : nat) (oEnabled pEnabled : bool) (s : PoolState) : Prop := {
  count_le : requestCount (sharedState s) <= m;
  count_flag : maxRequestsReached (sharedState s) = true -> requestCount (sharedState s) = m;
  count_openai : if oEnabled
                 then length (results_openai s) + awaiting (workers s)
                      = requestCount (sharedState s)
                 else length (results_openai s) = 0;
  count_portkey : if pEnabled
                  then length (results_portkey s) + awaiting (workers s)
                       = requestCount (sharedState s)
                  else length (results_portkey s) = 0
}.

(** What the head of the loop does to the pool, by the branch taken. *)
Inductive HeadOutcome (cfg : Config) (i : nat) (s : PoolState) : PoolState -> Prop :=
  | head_stopped :
      shouldStop (sharedState s) = true ->
      HeadOutcome cfg i s (setWorker i Finished s)
  | head_time :
      shouldStop (sharedState s) = false ->
      HeadOutcome cfg i s
        (setWorker i Finished (setShared (stopForTime (sharedState s)) s))
  | head_max :
      shouldStop (sharedState s) = false ->
      boundHit (maxRequests cfg) num_ge (num_of_nat (requestCount (sharedState s))) = true ->
      HeadOutcome cfg i s
        (setWorker i Finished (setShared (stopForMax (sharedState s)) s))
  | head_exceeded :
      shouldStop (sharedState s) = false ->
      boundHit (maxRequests cfg) num_ge (num_of_nat (requestCount (sharedState s))) = false ->
      boundHit (maxRequests cfg) num_gt
        (num_of_nat (S (requestCount (sharedState s)))) = true ->
      HeadOutcome cfg i s
        (setWorker i Finished (setShared (stopForMax (increment (sharedState s))) s))
  | head_issue :
      shouldStop (sharedState s) = false ->
      boundHit (maxRequests cfg) num_ge (num_of_nat (requestCount (sharedState s))) = false ->
      boundHit (maxRequests cfg) num_gt
        (num_of_nat (S (requestCount (sharedState s)))) = false ->
      HeadOutcome cfg i s
        {| sharedState := increment (sharedState s);
           results_openai := results_openai s;
           results_portkey := results_portkey s;
           workers := <[i := AwaitingResults (S (requestCount (sharedState s)))]> (workers s);
           started := (i, S (requestCount (sharedState s))) :: started s |}.

(** ** The run *)

(** How far [runBenchmark] got: the preflight threw; or the pool is still
    running after the segments given; or every worker has finished and the
    report was generated and printed. [probes] are the requests of the
    preflight. *)
Inductive RunOutcome : Type :=
  | Aborted (probes : list (Provider * Prompt)) (e : BenchError)
  | StillRunning (probes : list (Provider * Prompt)) (s : PoolState)
  | Completed (probes : list (Provider * Prompt)) (s : PoolState)
      (summary : Summary) (rendering : Rendering).

(** [runBenchmark()]: [probe] answers the requests of the preflight,
    [startTime] is the reading of [Date.now()] before the pool starts, and
    [evs] are the segments the workers run, in order. *)
Definition runBenchmark (cfg : Config) (fl : Flags)
    (probe : Provider -> Prompt -> ProbeOutcome) (startTime : Z) (evs : list Event)
  : RunOutcome :=
  match runPreflightTest cfg fl probe with
  | (probes, inl e) => Aborted probes e
  | (probes, inr pre) =>
      let final := exec cfg (openaiEnabled pre) (portkeyEnabled pre) startTime
                     evs (initialPool cfg) in
      if allFinished final then
        let summary := generateReport cfg (results_openai final) (results_portkey final) in
        Completed probes final summary (printReport cfg summary)
      else StillRunning probes final
  end.

(** The rounds the workers started, oldest first, as request numbers. *)
Definition loadRounds (o : RunOutcome) : list nat :=
  match o with
  | Aborted _ _ => []
  | StillRunning _ s => rev (List.map snd (started s))
  | Completed _ s _ _ => rev (List.map snd (started s))
  end.

(** ** The entry point *)

(** [!s] is false. *)
Definition present (v : option string) : bool :=
  match v with
  | Some EmptyString => false
  | Some _ => true
  | None => false
  end.

(** [!config.prompt] is false. *)
Definition promptPresent (p : Prompt) : bool :=
  match p with
  | PString EmptyString => false
  | PString _ => true
  | PMessages _ => true
  | PAbsent => false
  | POther => true
  end.

(** The "Set defaults" assignments of [main]. *)
Definition setDefaults (config : Config) : Config :=
  {| mode := mode config;
     prompt := prompt config;
     model := model config;
     maxTokens := maxTokens config;
     temperature := temperature config;
     concurrency := Some (or_default (concurrency config) 5);
     maxRequests := Some (or_default (maxRequests config) 100);
     testDuration := Some (or_default (testDuration config) 60);
     openaiApiKey := openaiApiKey config;
     portkeyApiKey := portkeyApiKey config |}.

(** [main] from the parsed configuration to the call of the constructor:
    the validation, then the defaults. *)
Definition prepareConfig (config : Config) : BenchError + Config :=
  let m := modeOf config in
  if negb (promptPresent (prompt config)) then inl MissingPrompt
  else if String.eqb m "comparison" then
    if negb (present (portkeyApiKey config)) then inl (MissingKey "portkeyApiKey" "comparison")
    else if negb (present (openaiApiKey config)) then inl (MissingKey "openaiApiKey" "comparison")
    else inr (setDefaults config)
  else if String.eqb m "loadtest" then
    if negb (present (portkeyApiKey config)) then inl (MissingKey "portkeyApiKey" "loadtest")
    else inr (setDefaults config)
  else inl (InvalidMode m).

(** [main()] on a parsed configuration: the error it reports before exiting
    with status 1, or the outcome of the run. *)
Definition main (config : Config)
    (probe : Provider -> Prompt -> ProbeOutcome) (startTime : Z) (evs : list Event)
  : BenchError + RunOutcome :=
  match prepareConfig config with
  | inl e => inl e
  | inr cfg =>
      match construct cfg with
      | inl e => inl e
      | inr fl =>
          match runBenchmark cfg fl probe startTime evs with
          | Aborted _ e => inl e
          | o => inr o
          end
      end
  end.

(** ** Scenarios *)

(** A configuration that sets the three numbers of the pool and nothing
    else: comparison mode by default, a short string prompt. *)
Definition poolConfig (c m d : option Q) : Config :=
  {| mode := None;
     prompt := PString "Hello";
     model := None;
     maxTokens := None;
     temperature := None;
     concurrency := c;
     maxRequests := m;
     testDuration := d;
     openaiApiKey := Some "sk-test";
     portkeyApiKey := Some "pk-test" |}.

(** [cfg] with another [mode]. *)
Definition withMode (m : option string) (cfg : Config) : Config :=
  {| mode := m;
     prompt := prompt cfg;
     model := model cfg;
     maxTokens := maxTokens cfg;
     temperature := temperature cfg;
     concurrency := concurrency cfg;
     maxRequests := maxRequests cfg;
     testDuration := testDuration cfg;
     openaiApiKey := openaiApiKey cfg;
     portkeyApiKey := portkeyApiKey cfg |}.

(** [cfg] with another [prompt]. *)
Definition withPrompt (pr : Prompt) (cfg : Config) : Config :=
  {| mode := mode cfg;
     prompt := pr;
     model := model cfg;
     maxTokens := maxTokens cfg;
     temperature := temperature cfg;
     concurrency := concurrency cfg;
     maxRequests := maxRequests cfg;
     testDuration := testDuration cfg;
     openaiApiKey := openaiApiKey cfg;
     portkeyApiKey := portkeyApiKey cfg |}.

Definition digitValue (c : ascii) : option Z :=
  let n := nat_of_ascii c in
  if andb (Nat.leb 48 n) (Nat.leb n 57) then Some (Z.of_nat (n - 48)) else None.

Fixpoint digitsFrom (acc : Z) (s : string) : Z :=
  match s with
  | EmptyString => acc
  | String c rest =>
      match digitValue c with
      | Some d => digitsFrom (10 * acc + d) rest
      | None => acc
      end
  end.

(** [parseFloat] on the strings the scenarios use: a run of decimal digits
    is its value, a string that does not start with a digit is NaN. *)
Definition parseDigits (s : string) : option Q :=
  match s with
  | EmptyString => None
  | String c _ =>
      match digitValue c with
      | Some _ => Some (inject_Z (digitsFrom 0 s))
      | None => None
      end
  end.

(** A completer that succeeds at once and reports nothing. *)
Definition instantClient : Client :=
  fun _ => Resolved {| data_usage := None; response := None |}.

(** The record of a request to [instantClient] made and answered at [t]. *)
Definition instantRecord (cfg : Config) (t : Z) (p : Provider) : RequestRecord :=
  makeRequest parseDigits cfg instantClient (prompt cfg) p t t "".

(** A completer whose response carries the processing time [ms] in the
    header the direct API uses, behind a [get] method. *)
Definition timedClient (ms : string) : Client :=
  fun _ =>
    Resolved
      {| data_usage := None;
         response :=
           Some {| headers :=
                     Some {| headers_get :=
                               Some (fun name =>
                                       if String.eqb name "openai-processing-ms"
                                       then Some ms else None);
                             headers_field := fun _ => None;
                             headers_entries := Some [("openai-processing-ms", ms)] |} |} |}.

(** A completer that always fails with the given message. *)
Definition failingClient (message : string) : Client := fun _ => Rejected message.

(** The order in which the event loop runs the segments when every request
    and every timer takes the same time: [passes] times, every worker in
    turn; the clock reads [now k] during pass [k]. *)
Definition roundRobin (c passes : nat) (now : nat -> Z)
    (mk : Provider -> RequestRecord) : list Event :=
  flat_map
    (fun k => List.map (fun i => {| ev_worker := i; ev_now := now k; ev_record := mk |})
                       (seq 0 c))
    (seq 0 passes).

(** A probe that succeeds for the providers [ok] accepts and fails for the
    others, through [makeRequest]. *)
Definition probeWith (cfg : Config) (ok : Provider -> bool)
  : Provider -> Prompt -> ProbeOutcome :=
  fun p pr =>
    Returned (makeRequest parseDigits cfg
                (if ok p then timedClient "800" else failingClient "ECONNREFUSED")
                pr p 0 1000 "").

(** [n] times the character [c]. *)
Fixpoint repeatChar (n : nat) (c : ascii) : string :=
  match n with
  | O => EmptyString
  | S k => String c (repeatChar k c)
  end.

(** A configuration whose prompt has 101 characters. *)
Definition longPromptConfig : Config :=
  withPrompt (PString (repeatChar 101 "a")) (poolConfig None None None).

(** Comparison mode, the direct API refusing connections. *)
Definition directDown : Provider -> bool :=
  fun p => match p with OpenAI => false | Portkey => true end.

(** A failed request that took 5 ms. *)
Definition timedOut (p : Provider) : RequestRecord :=
  failureRecord p 5 "" "timeout".

(** Four workers, ten requests, no time limit; every request answered at
    once. *)
Definition fourByTen : Config := poolConfig (Some 4%Q) (Some 10%Q) None.

(** The event loop on [fourByTen]: seven passes over the four workers, 100
    ms apart. *)
Definition fourByTenSchedule : list Event :=
  roundRobin 4 7 (fun k => (100 * Z.of_nat k)%Z) (instantRecord fourByTen 0).

(** The first segment of the first worker. *)
Definition firstSegment : Event :=
  {| ev_worker := 0; ev_now := 0; ev_record := instantRecord fourByTen 0 |}.

(** ** The rounds of the pool *)

(** The requests started are numbered 1, 2, 3, ... in the order of their
    start; the counter is their number, or one more once a worker has counted
    past a maximum that is not an integer; and every round started is in
    flight or recorded, once for each enabled provider. *)
Record RoundsInv (cfg : Config) (oEnabled pEnabled : bool) (s : PoolState) : Prop := {
  rounds_numbers :
    List.map snd (started s) = rev (seq 1 (length (started s)));
  rounds_counter :
    requestCount (sharedState s) = length (started s)
    \/ (requestCount (sharedState s) = S (length (started s))
        /\ shouldStop (sharedState s) = true
        /\ maxRequestsReached (sharedState s) = true
        /\ exists M, maxRequests cfg = Some M
                     /\ (num_of_nat (length (started s)) < M)%Q
                     /\ (M < num_of_nat (S (length (started s))))%Q);
  rounds_openai :
    if oEnabled
    then length (results_openai s) + awaiting (workers s) = length (started s)
    else results_openai s = [];
  rounds_portkey :
    if pEnabled
    then length (results_portkey s) + awaiting (workers s) = length (started s)
    else results_portkey s = []
}.

(** Two and a half requests at most, two workers, no time limit. *)
Definition halfRequest : Config := poolConfig (Some 2%Q) (Some (5 # 2)%Q) None.

(** ** Report file *)

(** One character of [replace(/[:.]/g, '-')]. *)
Definition replaceColonDot (c : ascii) : ascii :=
  if orb (Ascii.eqb c ":") (Ascii.eqb c ".") then "-"%char else c.

(** [s.replace(/[:.]/g, '-')] *)
Fixpoint dashed (s : string) : string :=
  match s with
  | EmptyString => EmptyString
  | String c rest => String (replaceColonDot c) (dashed rest)
  end.

(** The [filename] of [saveReport], for [stamp] the value of
    [new Date().toISOString()]. *)
Definition reportFilename (stamp : string) : string :=
  "benchmark_results_" ++ dashed stamp ++ ".json".

(** The path [saveReport] writes to. *)
Definition reportPath (stamp : string) : string :=
  "./results/" ++ reportFilename stamp.

(** The character [c] occurs in [s]. *)
Fixpoint occurs (c : ascii) (s : string) : bool :=
  match s with
  | EmptyString => false
  | String d rest => orb (Ascii.eqb c d) (occurs c rest)
  end.

(** ** More scenarios *)

(** [cfg] with other generation parameters. *)
Definition withGeneration (md : option string) (tokens temp : option Q) (cfg : Config)
  : Config :=
  {| mode := mode cfg;
     prompt := prompt cfg;
     model := md;
     maxTokens := tokens;
     temperature := temp;
     concurrency := concurrency cfg;
     maxRequests := maxRequests cfg;
     testDuration := testDuration cfg;
     openaiApiKey := openaiApiKey cfg;
     portkeyApiKey := portkeyApiKey cfg |}.

(** [cfg] with other numbers for the pool. *)
Definition withPool (c m d : option Q) (cfg : Config) : Config :=
  {| mode := mode cfg;
     prompt := prompt cfg;
     model := model cfg;
     maxTokens := maxTokens cfg;
     temperature := temperature cfg;
     concurrency := c;
     maxRequests := m;
     testDuration := d;
     openaiApiKey := openaiApiKey cfg;
     portkeyApiKey := portkeyApiKey cfg |}.

(** A raw response whose headers, a plain object without [get] and
    [entries], carry the given fields. *)
Definition plainResponse (fields : list (string * string)) : RawResponse :=
  {| headers :=
       Some {| headers_get := None;
               headers_field :=
                 fun name =>
                   match List.find (fun kv => String.eqb (fst kv) name) fields with
                   | Some kv => Some (snd kv)
                   | None => None
                   end;
               headers_entries := None |} |}.

(** The record of a request answered after [total] ms by a response that
    reports the processing time [ms]. *)
Definition timedRecord (p : Provider) (total : Z) (ms : string) : RequestRecord :=
  makeRequest parseDigits fourByTen
    (fun _ => Resolved {| data_usage := None;
                          response := Some (plainResponse [("openai-processing-ms", ms)]) |})
    (PString "Hello") p 0 total "".

(** * Properties *)

(** ** Numbers *)

Lemma num_gt_zero_truthy (t : Q) : num_gt t 0 = true -> truthy t = true.
Proof.
  unfold num_gt, truthy. intros H.
  destruct (Qeq_bool t 0) eqn:E; [|reflexivity].
  apply Qeq_bool_eq in E.
  assert (L : Qle_bool t 0 = true) by (apply Qle_bool_iff; rewrite E; apply Qle_refl).
  rewrite L in H. discriminate.
Qed.

(** ** Request executor *)

Section ExecutorFacts.

Variable parseFloat : string -> option Q.

Lemma positiveTime_truthy (value : string) (t : Q) :
  positiveTime parseFloat value = Some t -> truthy t = true.
Proof.
  unfold positiveTime. destruct (parseFloat value) as [q|]; [|discriminate].
  destruct (num_gt q 0) eqn:E; [|discriminate].
  intros [= <-]. now apply num_gt_zero_truthy.
Qed.

Lemma probeNames_truthy (h : Headers) (names : list string) (t : Q) :
  probeNames parseFloat h names = Some t -> truthy t = true.
Proof.
  induction names as [|name rest IH]; simpl; [discriminate|].
  destruct (headerValue h name) as [value|]; [|exact IH].
  destruct (positiveTime parseFloat value) as [q|] eqn:E; [|exact IH].
  intros [= <-]. exact (positiveTime_truthy _ _ E).
Qed.

Lemma scanEntries_truthy (es : list (string * string)) (t : Q) :
  scanEntries parseFloat es = Some t -> truthy t = true.
Proof.
  induction es as [|[key value] rest IH]; simpl; [discriminate|].
  destruct (includes (toLowerCase key) "processing" &&
            (includes (toLowerCase key) "ms" || includes (toLowerCase key) "time"));
    [|exact IH].
  destruct (positiveTime parseFloat value) as [q|] eqn:E; [|exact IH].
  intros [= <-]. exact (positiveTime_truthy _ _ E).
Qed.

(** A processing time that was extracted counts as true in a condition. *)
Lemma extract_truthy (resp : option RawResponse) (t : Q) :
  extractOpenAIProcessingTime parseFloat resp = Some t -> truthy t = true.
Proof.
  unfold extractOpenAIProcessingTime.
  destruct resp as [raw|]; [|discriminate].
  destruct (headers raw) as [h|]; [|discriminate].
  destruct (probeNames parseFloat h processingTimeHeaders) as [q|] eqn:E.
  - intros [= <-]. exact (probeNames_truthy _ _ _ E).
  - destruct (headers_entries h) as [es|]; [|discriminate].
    apply scanEntries_truthy.
Qed.

Lemma failureRecord_fields (p : Provider) (total : Q) (stamp message : string) :
  let r := failureRecord p total stamp message in
  openaiProcessingTime r = None /\ networkLatency r = None
  /\ tokensUsed r = 0%Q /\ promptTokens r = 0%Q /\ completionTokens r = 0%Q.
Proof. repeat split. Qed.

(** The shape of every record of [makeRequest]: either the failure
    object, or a success whose latency follows its processing time. *)
Lemma makeRequest_cases (cfg : Config) (client : Client) (pr : Prompt)
    (p : Provider) (t0 t1 : Z) (stamp : string) :
  let r := makeRequest parseFloat cfg client pr p t0 t1 stamp in
  (exists message, r = failureRecord p (inject_Z (t1 - t0)) stamp message)
  \/ (success r = true
      /\ totalTime r = inject_Z (t1 - t0)
      /\ exists resp, openaiProcessingTime r = extractOpenAIProcessingTime parseFloat resp
         /\ networkLatency r = latencyOf (totalTime r) (openaiProcessingTime r)).
Proof.
  unfold makeRequest.
  destruct pr as [s|ms| |]; try (left; eexists; reflexivity).
  - match goal with |- context [client ?q] => destruct (client q) as [w|message] end.
    + right. simpl. repeat split. exists (response w). split; reflexivity.
    + left. eexists; reflexivity.
  - match goal with |- context [client ?q] => destruct (client q) as [w|message] end.
    + right. simpl. repeat split. exists (response w). split; reflexivity.
    + left. eexists; reflexivity.
Qed.

End ExecutorFacts.

(** C5. For every record of [makeRequest], the network latency is the total
    time minus the processing time when a processing time was extracted, and
    absent otherwise; a failed record has neither and counts no tokens. Two
    requests that take 1000 ms and 1206 ms and report 800 ms of processing
    have latencies 200 ms and 406 ms, which average to 303 ms. *)
Theorem makeRequest_network_latency :
  (forall parseFloat cfg client pr p t0 t1 stamp,
     let r := makeRequest parseFloat cfg client pr p t0 t1 stamp in
     (forall t, openaiProcessingTime r = Some t ->
                networkLatency r = Some (totalTime r - t)%Q)
     /\ (openaiProcessingTime r = None -> networkLatency r = None)
     /\ (success r = false ->
         openaiProcessingTime r = None /\ networkLatency r = None
         /\ tokensUsed r = 0%Q /\ promptTokens r = 0%Q /\ completionTokens r = 0%Q))
  /\ (let cfg := poolConfig None None None in
      let r1 := makeRequest parseDigits cfg (timedClient "800") (prompt cfg) OpenAI 0 1000 "" in
      let r2 := makeRequest parseDigits cfg (timedClient "800") (prompt cfg) OpenAI 0 1206 "" in
      (totalTime r1 = 1000%Q /\ openaiProcessingTime r1 = Some 800%Q)
      /\ (totalTime r2 = 1206%Q /\ openaiProcessingTime r2 = Some 800%Q)
      /\ networkLatency r1 = Some 200%Q
      /\ networkLatency r2 = Some 406%Q
      /\ (avgNetworkLatency (calculateStats [r1; r2]) == 303)%Q).
Proof.
  split.
  - intros parseFloat cfg client pr p t0 t1 stamp r.
    destruct (makeRequest_cases parseFloat cfg client pr p t0 t1 stamp)
      as [[message E]|(Hs & Ht & resp & Hp & Hn)]; fold r in E || fold r in Hs, Ht, Hp, Hn.
    + rewrite E. simpl. repeat split; discriminate || reflexivity.
    + split; [|split].
      * intros t Et. rewrite Hn, Et. simpl.
        rewrite Et in Hp. symmetry in Hp. apply extract_truthy in Hp.
        now rewrite Hp.
      * intros En. now rewrite Hn, En.
      * rewrite Hs. discriminate.
  - vm_compute. repeat split; reflexivity || discriminate.
Qed.

(** A request of one second whose response reports 800 ms. *)
Lemma makeRequest_network_latency_witness :
  networkLatency
    (makeRequest parseDigits fourByTen (timedClient "800") (PString "Hello") OpenAI 0 1000 "")
  = Some (totalTime
            (makeRequest parseDigits fourByTen (timedClient "800") (PString "Hello")
               OpenAI 0 1000 "") - 800)%Q.
Proof.
  destruct makeRequest_network_latency as [H _].
  destruct (H parseDigits fourByTen (timedClient "800") (PString "Hello") OpenAI 0%Z 1000%Z "")
    as (L & _ & _).
  apply L. reflexivity.
Defined.

(** ** Preflight validator *)

Lemma length_substring_prefix (n : nat) (s : string) :
  String.length (substring 0 n s) = Nat.min n (String.length s).
Proof.
  revert s. induction n as [|n IH]; intros [|c s]; simpl; try reflexivity.
  now rewrite IH.
Qed.

Lemma length_append (s1 s2 : string) :
  String.length (s1 ++ s2) = String.length s1 + String.length s2.
Proof. induction s1 as [|c s1 IH]; simpl; [reflexivity | now rewrite IH]. Qed.

Lemma substring_prefix_short (n : nat) (s : string) :
  String.length s <= n -> substring 0 n s = s.
Proof.
  revert s. induction n as [|n IH]; intros [|c s]; simpl; intros H;
    try reflexivity; try lia.
  f_equal. apply IH. lia.
Qed.

Lemma append_empty_r (s : string) : (s ++ "")%string = s.
Proof. induction s as [|c s IH]; simpl; [reflexivity | now rewrite IH]. Qed.

Lemma runPreflightTest_calls (cfg : Config) (fl : Flags)
    (probe : Provider -> Prompt -> ProbeOutcome) :
  fst (runPreflightTest cfg fl probe)
  = (if shouldTestOpenAI fl then [(OpenAI, testPrompt cfg)] else [])
    ++ (if shouldTestPortkey fl then [(Portkey, testPrompt cfg)] else []).
Proof.
  unfold runPreflightTest.
  repeat match goal with |- context [if ?b then (_, _) else _] => destruct b end;
    reflexivity.
Qed.

(** The preflight of a prompt of 101 characters sends 103 characters. *)
Lemma preflight_prompt_longer_than_100 :
  prompt longPromptConfig = PString (repeatChar 101 "a")
  /\ exists s', In (Portkey, PString s')
                  (fst (runPreflightTest longPromptConfig portkeyOnly
                          (probeWith longPromptConfig (fun _ => true))))
                /\ String.length s' = 103
                /\ ~ String.length s' <= 100.
Proof.
  split; [reflexivity|].
  exists (repeatChar 100 "a" ++ "...")%string.
  split; [vm_compute; left; reflexivity|].
  split; [reflexivity|].
  vm_compute. intros H. repeat (apply le_S_n in H). inversion H.
Qed.

(** C8, as the code has it. The preflight makes one request per enabled
    provider, all with the same test prompt. For a string prompt this is its
    first 100 characters, followed by three dots when the prompt is longer
    than 100 characters: the prompt itself up to 100 characters, 103
    characters beyond. A message array is passed unchanged. *)
Theorem preflight_probe_prompt (cfg : Config) (fl : Flags)
    (probe : Provider -> Prompt -> ProbeOutcome) :
  fst (runPreflightTest cfg fl probe)
  = (if shouldTestOpenAI fl then [(OpenAI, testPrompt cfg)] else [])
    ++ (if shouldTestPortkey fl then [(Portkey, testPrompt cfg)] else [])
  /\ (forall s, prompt cfg = PString s ->
        exists s', testPrompt cfg = PString s'
          /\ s' = (substring 0 100 s ++ (if Nat.ltb 100 (String.length s) then "..." else ""))%string
          /\ String.length s' <= 103
          /\ (String.length s <= 100 -> s' = s)
          /\ (100 < String.length s -> String.length s' = 103))
  /\ (forall ms, prompt cfg = PMessages ms -> testPrompt cfg = PMessages ms).
Proof.
  split; [apply runPreflightTest_calls|]. split.
  - intros s Hs. unfold testPrompt. rewrite Hs.
    eexists; split; [reflexivity|]. split; [reflexivity|].
    rewrite length_append, length_substring_prefix.
    destruct (Nat.ltb 100 (String.length s)) eqn:E.
    + apply Nat.ltb_lt in E. simpl String.length. repeat split; lia.
    + apply Nat.ltb_ge in E. simpl String.length. repeat split; try lia.
      intros _. rewrite append_empty_r. now apply substring_prefix_short.
  - intros ms Hms. unfold testPrompt. now rewrite Hms.
Qed.

Lemma preflight_probe_prompt_witness :
  exists s', testPrompt longPromptConfig = PString s' /\ String.length s' = 103.
Proof.
  destruct (preflight_probe_prompt longPromptConfig portkeyOnly
              (probeWith longPromptConfig (fun _ => true)))
    as (_ & H & _).
  destruct (H (repeatChar 101 "a") eq_refl) as (s' & E & _ & _ & _ & L).
  exists s'. split; [exact E|]. apply L. vm_compute. lia.
Defined.

(** What the preflight does, by the four outcomes of the two probes. *)
Lemma runPreflightTest_error (cfg : Config) (fl : Flags)
    (probe : Provider -> Prompt -> ProbeOutcome) :
  orb (probeFailed cfg fl probe OpenAI) (probeFailed cfg fl probe Portkey) = true ->
  snd (runPreflightTest cfg fl probe)
  = inl (if allActiveFailed cfg fl probe
         then AllProvidersFailed (failedNames cfg fl probe)
         else SomeProvidersFailed (failedNames cfg fl probe)).
Proof.
  unfold runPreflightTest, allActiveFailed, failedNames, probeFailed, succeeded.
  destruct fl as [o p]; simpl.
  destruct o, p; simpl;
    destruct (probeSuccess (probe OpenAI (testPrompt cfg)));
    destruct (probeSuccess (probe Portkey (testPrompt cfg)));
    simpl; intros H; try discriminate; reflexivity.
Qed.

(** C6. When the probe of an enabled provider fails, [runPreflightTest]
    throws: the error of all providers when every enabled provider failed,
    the error of some providers otherwise. [runBenchmark] then stops with that
    error, whatever the workers would have done: no round is started. *)
Theorem preflight_failure_aborts (cfg : Config) (fl : Flags)
    (probe : Provider -> Prompt -> ProbeOutcome) :
  orb (probeFailed cfg fl probe OpenAI) (probeFailed cfg fl probe Portkey) = true ->
  let e := if allActiveFailed cfg fl probe
           then AllProvidersFailed (failedNames cfg fl probe)
           else SomeProvidersFailed (failedNames cfg fl probe) in
  snd (runPreflightTest cfg fl probe) = inl e
  /\ forall startTime evs,
       runBenchmark cfg fl probe startTime evs
       = Aborted (fst (runPreflightTest cfg fl probe)) e
       /\ loadRounds (runBenchmark cfg fl probe startTime evs) = [].
Proof.
  intros H e. pose proof (runPreflightTest_error cfg fl probe H) as E. fold e in E.
  split; [exact E|]. intros startTime evs. unfold runBenchmark.
  destruct (runPreflightTest cfg fl probe) as [probes [err|pre]]; simpl in E.
  - injection E as ->. split; reflexivity.
  - discriminate.
Qed.

(** Comparison mode, the direct provider down and the proxy up: the error
    of some providers, for OpenAI, and no round. *)
Lemma preflight_failure_aborts_witness :
  runBenchmark (poolConfig (Some 4%Q) (Some 10%Q) None) bothProviders
    (probeWith (poolConfig (Some 4%Q) (Some 10%Q) None) directDown) 0
    (roundRobin 4 7 (fun _ => 0%Z) (instantRecord (poolConfig (Some 4%Q) (Some 10%Q) None) 0))
  = Aborted [(OpenAI, PString "Hello"); (Portkey, PString "Hello")]
      (SomeProvidersFailed ["OpenAI"])
  /\ loadRounds
       (runBenchmark (poolConfig (Some 4%Q) (Some 10%Q) None) bothProviders
          (probeWith (poolConfig (Some 4%Q) (Some 10%Q) None) directDown) 0
          (roundRobin 4 7 (fun _ => 0%Z)
             (instantRecord (poolConfig (Some 4%Q) (Some 10%Q) None) 0))) = [].
Proof.
  refine (proj2 (preflight_failure_aborts (poolConfig (Some 4%Q) (Some 10%Q) None)
                   bothProviders
                   (probeWith (poolConfig (Some 4%Q) (Some 10%Q) None) directDown) _) _ _).
  reflexivity.
Defined.

(** ** Provider selector *)





(** ** Statistics engine *)

Lemma filter_success_none (results : list RequestRecord) :
  Forall (fun r => success r = false) results -> List.filter success results = [].
Proof.
  induction 1 as [|r rest Hr _ IH]; simpl; [reflexivity|].
  now rewrite Hr.
Qed.

(** Without a successful record [calculateStats] takes its early return. *)
Lemma calculateStats_no_success (results : list RequestRecord) :
  Forall (fun r => success r = false) results -> calculateStats results = zeroStats.
Proof.
  intros H. unfold calculateStats. now rewrite (filter_success_none results H).
Qed.

(** C3, on the code. One failed request is one attempt; [calculateStats]
    returns the object of its early return, whose success rate is 0, failure
    rate 100 and timing fields 0, and whose [count] is 0, not 1; the return
    for a collection with a success has [count] the number of attempts. *)
Theorem calculateStats_count_of_failures :
  let s := calculateStats [timedOut Portkey] in
  length [timedOut Portkey] = 1
  /\ success (timedOut Portkey) = false
  /\ count s = 0
  /\ (successRate s = 0%Q /\ failureRate s = 100%Q)
  /\ (avgTotalTime s = 0%Q /\ avgOpenAITime s = 0%Q /\ avgNetworkLatency s = 0%Q
      /\ medianTotalTime s = Some 0%Q /\ p95TotalTime s = Some 0%Q
      /\ p99TotalTime s = Some 0%Q /\ minTotalTime s = 0%Q /\ maxTotalTime s = 0%Q)
  /\ (successfulCount s = None /\ failedCount s = None)
  /\ count (calculateStats [timedOut Portkey; instantRecord longPromptConfig 0 Portkey]) = 2.
Proof.
  rewrite (calculateStats_no_success [timedOut Portkey]).
  - repeat split; reflexivity.
  - repeat constructor.
Qed.

Lemma Qeq_bool_minus_zero (a b : Q) :
  (b == 0)%Q -> Qeq_bool (a - b) 0 = Qeq_bool a 0.
Proof.
  intros Hb. destruct (Qeq_bool a 0) eqn:E.
  - apply Qeq_bool_iff. apply Qeq_bool_eq in E. rewrite E, Hb. reflexivity.
  - destruct (Qeq_bool (a - b) 0) eqn:F; [|reflexivity].
    apply Qeq_bool_eq in F. apply Qeq_bool_neq in E. exfalso. apply E.
    rewrite Hb in F. lra.
Qed.

Lemma Qle_bool_minus_zero (a b : Q) :
  (b == 0)%Q -> Qle_bool 0 (a - b) = Qle_bool 0 a.
Proof.
  intros Hb. destruct (Qle_bool 0 a) eqn:E.
  - apply Qle_bool_iff. apply Qle_bool_iff in E. lra.
  - destruct (Qle_bool 0 (a - b)) eqn:F; [|reflexivity].
    apply Qle_bool_iff in F. assert (Qle_bool 0 a = true) as G
      by (apply Qle_bool_iff; lra).
    rewrite G in E. discriminate.
Qed.

(** The quotient by a zero divisor. *)
Lemma js_div_by_zero (a b : Q) :
  (b == 0)%Q ->
  js_div (a - b) b
  = if Qeq_bool a 0 then JNaN else if Qle_bool 0 a then JPosInf else JNegInf.
Proof.
  intros Hb. unfold js_div.
  assert (Qeq_bool b 0 = true) as -> by now apply Qeq_bool_iff.
  now rewrite Qeq_bool_minus_zero, Qle_bool_minus_zero.
Qed.

(** Both providers failed their only request: the percentage is NaN. *)
Lemma overhead_percentage_is_nan :
  modeOf (poolConfig None None None) = "comparison"
  /\ (avgTotalTime (calculateStats [timedOut OpenAI]) == 0)%Q
  /\ exists c, comparison (generateReport (poolConfig None None None)
                             [timedOut OpenAI] [timedOut Portkey]) = Some c
               /\ latencyOverheadPercentage c = JNaN.
Proof.
  split; [reflexivity|]. split; [reflexivity|].
  eexists. split; reflexivity.
Qed.

(** C7, as the code has it. In comparison mode with a result for both
    providers, when the average total time of the direct provider is 0 the
    percentage is the quotient by zero, unguarded: NaN when the average of the
    proxy is 0 as well, an infinity of the sign of that average otherwise. *)
Theorem overhead_percentage_zero_direct (cfg : Config)
    (openai portkey : list RequestRecord) :
  modeOf cfg = "comparison" ->
  openai <> [] -> portkey <> [] ->
  (avgTotalTime (calculateStats openai) == 0)%Q ->
  exists c,
    comparison (generateReport cfg openai portkey) = Some c
    /\ latencyOverheadPercentage c
       = (if Qeq_bool (avgTotalTime (calculateStats portkey)) 0 then JNaN
          else if Qle_bool 0 (avgTotalTime (calculateStats portkey)) then JPosInf
          else JNegInf)
    /\ js_is_finite (latencyOverheadPercentage c) = false.
Proof.
  intros M Ho Hp Z0. unfold generateReport. rewrite M.
  destruct openai as [|o openai]; [contradiction|].
  destruct portkey as [|p portkey]; [contradiction|].
  simpl comparison. eexists. split; [reflexivity|].
  simpl latencyOverheadPercentage. rewrite (js_div_by_zero _ _ Z0).
  split.
  - destruct (Qeq_bool _ 0); [reflexivity|]. now destruct (Qle_bool 0 _).
  - destruct (Qeq_bool _ 0); [reflexivity|]. now destruct (Qle_bool 0 _).
Qed.

(** The direct provider failed, the proxy answered at once. *)
Lemma overhead_percentage_zero_direct_witness :
  exists c,
    comparison (generateReport (poolConfig None None None) [timedOut OpenAI]
                  [makeRequest parseDigits (poolConfig None None None)
                     (timedClient "800") (PString "Hello") Portkey 0 1000 ""]) = Some c
    /\ latencyOverheadPercentage c = JPosInf.
Proof.
  destruct (overhead_percentage_zero_direct (poolConfig None None None) [timedOut OpenAI]
              [makeRequest parseDigits (poolConfig None None None)
                 (timedClient "800") (PString "Hello") Portkey 0 1000 ""])
    as (c & E & P & _).
  - reflexivity.
  - discriminate.
  - discriminate.
  - reflexivity.
  - exists c. split; [exact E|]. rewrite P. reflexivity.
Defined.

Lemma num_of_nat_nonneg (n : nat) : (0 <= num_of_nat n)%Q.
Proof.
  unfold num_of_nat. change 0%Q with (inject_Z 0). rewrite <- Zle_Qle. lia.
Qed.

(** The index of a percentile between 0 and 100 lies in the array. *)
Lemma percentile_index_bounds (p : Q) (m : nat) :
  (0 <= p)%Q -> (p <= 100)%Q ->
  (0 <= p / 100 * num_of_nat m)%Q /\ (p / 100 * num_of_nat m <= num_of_nat m)%Q.
Proof.
  intros H0 H100. pose proof (num_of_nat_nonneg m) as Hm.
  assert (0 <= p / 100)%Q as Q0 by (apply Qle_shift_div_l; lra).
  assert (p / 100 <= 1)%Q as Q1 by (apply Qle_shift_div_r; lra).
  split.
  - now apply Qmult_le_0_compat.
  - rewrite <- (Qmult_1_l (num_of_nat m)) at 2.
    now apply Qmult_le_compat_r.
Qed.

Lemma at_index_nonneg (a : list Q) (k : Z) :
  (0 <= k)%Z -> at_index a k = a !! Z.to_nat k.
Proof.
  intros H. unfold at_index. destruct (Z.ltb_spec k 0); [lia | reflexivity].
Qed.

(** The body of [calculatePercentile] past its two early returns. *)
Lemma calculatePercentile_long (a : list Q) (p : Q) :
  2 <= length a ->
  calculatePercentile a p
  = let index := (p / 100 * num_of_nat (length a - 1))%Q in
    if Z.eqb (Qfloor index) (Qceiling index) then at_index a (Qfloor index)
    else match at_index a (Qfloor index), at_index a (Qceiling index) with
         | Some lo, Some hi =>
             Some (lo * (1 - (index - inject_Z (Qfloor index)))
                   + hi * (index - inject_Z (Qfloor index)))%Q
         | _, _ => None
         end.
Proof.
  destruct a as [|x [|y rest]]; simpl length; intros H; try lia. reflexivity.
Qed.


Lemma integral_floor_ceiling (x : Q) (k : Z) :
  (x == inject_Z k)%Q -> Qfloor x = k /\ Qceiling x = k.
Proof.
  intros E. rewrite E. split; [apply Qfloor_Z | apply Qceiling_Z].
Qed.
Lemma percentile_floor_ceiling_range (p : Q) (m : nat) :
  (0 <= p)%Q -> (p <= 100)%Q ->
  let index := (p / 100 * num_of_nat m)%Q in
  (0 <= Qfloor index)%Z /\ (Qfloor index <= Qceiling index)%Z
  /\ (Qceiling index <= Z.of_nat m)%Z.
Proof.
  intros H0 H100 index.
  destruct (percentile_index_bounds p m H0 H100) as [L U]. fold index in L, U.
  split; [|split].
  - rewrite <- (Qfloor_Z 0). now apply Qfloor_resp_le.
  - rewrite Zle_Qle. apply Qle_floor_ceiling.
  - rewrite <- (Qceiling_Z (Z.of_nat m)). now apply Qceiling_resp_le.
Qed.



(** ** Worker pool *)

Lemma total_insert (f : WorkerState -> nat) (ws : list WorkerState) (i : nat)
    (w0 w : WorkerState) :
  ws !! i = Some w0 -> total f (<[i := w]> ws) + f w0 = total f ws + f w.
Proof.
  unfold total. revert i.
  induction ws as [|x ws IH]; intros [|i]; simpl; try discriminate.
  - intros [= ->]. lia.
  - intros H. specialize (IH i H). lia.
Qed.

Lemma loopHead_outcome (cfg : Config) (startTime : Z) (i : nat) (now : Z)
    (s : PoolState) :
  HeadOutcome cfg i s (loopHead cfg startTime i now s).
Proof.
  unfold loopHead.
  destruct (shouldStop (sharedState s)) eqn:S1; [now constructor|].
  destruct (boundHit (testDuration cfg) num_ge _) eqn:T; [now constructor|].
  destruct (boundHit (maxRequests cfg) num_ge _) eqn:M1; [now constructor|].
  simpl requestCount.
  destruct (boundHit (maxRequests cfg) num_gt _) eqn:M2; now constructor.
Qed.

Lemma afterResults_openai (oE pE : bool) (i : nat) (mk : Provider -> RequestRecord)
    (s : PoolState) :
  results_openai (afterResults oE pE i mk s)
  = results_openai s ++ (if oE then [mk OpenAI] else []).
Proof.
  unfold afterResults, assignResults, roundResults.
  destruct oE, pE; simpl; now rewrite ?app_nil_r.
Qed.

Lemma afterResults_portkey (oE pE : bool) (i : nat) (mk : Provider -> RequestRecord)
    (s : PoolState) :
  results_portkey (afterResults oE pE i mk s)
  = results_portkey s ++ (if pE then [mk Portkey] else []).
Proof.
  unfold afterResults, assignResults, roundResults.
  destruct oE, pE; simpl; now rewrite ?app_nil_r.
Qed.

Lemma afterResults_rest (oE pE : bool) (i : nat) (mk : Provider -> RequestRecord)
    (s : PoolState) :
  sharedState (afterResults oE pE i mk s) = sharedState s
  /\ workers (afterResults oE pE i mk s) = <[i := AtLoopHead]> (workers s)
  /\ started (afterResults oE pE i mk s) = started s.
Proof.
  unfold afterResults. destruct (assignResults oE pE _). repeat split.
Qed.

Section PoolFacts.

Variable cfg : Config.
Variables (oE pE : bool) (startTime : Z).

(** A property of the initial pool that every segment preserves holds in
    every reachable state. *)
Lemma reachable_ind (P : PoolState -> Prop) :
  P (initialPool cfg) ->
  (forall ev s, P s -> P (step cfg oE pE startTime ev s)) ->
  forall s, reachable cfg oE pE startTime s -> P s.
Proof.
  intros Hinit Hstep s [evs ->]. unfold exec.
  induction evs as [|ev evs IH] using rev_ind; [exact Hinit|].
  rewrite fold_left_app. simpl. now apply Hstep.
Qed.


(** *** The counter and the stop flag never go back *)

Lemma step_monotone (ev : Event) (s : PoolState) :
  requestCount (sharedState s)
    <= requestCount (sharedState (step cfg oE pE startTime ev s))
  /\ (shouldStop (sharedState s) = true ->
      shouldStop (sharedState (step cfg oE pE startTime ev s)) = true).
Proof.
  unfold step.
  destruct (workers s !! ev_worker ev) as [[|n|]|]; try (split; [lia | auto]).
  - destruct (loopHead_outcome cfg startTime (ev_worker ev) (ev_now ev) s);
      simpl; split; auto; lia.
  - destruct (afterResults_rest oE pE (ev_worker ev) (ev_record ev) s) as (-> & _).
    split; [lia | auto].
Qed.

(** *** The stop flags *)

Lemma StopInv_initial : StopInv (initialPool cfg).
Proof.
  split; simpl; try discriminate.
  - intros [H _]. discriminate.
  - intros _. apply Forall_replicate. discriminate.
Qed.

Lemma StopInv_step (ev : Event) (s : PoolState) :
  StopInv s -> StopInv (step cfg oE pE startTime ev s).
Proof.
  intros [Ht Hm H1 Hw Hf]. unfold step.
  destruct (workers s !! ev_worker ev) as [[|n|]|]; try (now split).
  - destruct (loopHead_outcome cfg startTime (ev_worker ev) (ev_now ev) s)
      as [S1|S1|S1 _|S1 _ _|S1 _ _]; split; simpl;
      solve [ intuition congruence
            | intros A; apply Forall_insert; [now apply Hf | discriminate] ].
  - destruct (afterResults_rest oE pE (ev_worker ev) (ev_record ev) s) as (E1 & E2 & _).
    split; rewrite ?E1, ?E2; auto.
    intros A. apply Forall_insert; [now apply Hf | discriminate].
Qed.

Lemma reachable_StopInv (s : PoolState) :
  reachable cfg oE pE startTime s -> StopInv s.
Proof.
  apply reachable_ind; [apply StopInv_initial | intros; now apply StopInv_step].
Qed.

Lemma exec_monotone (evs : list Event) (s : PoolState) :
  requestCount (sharedState s)
    <= requestCount (sharedState (exec cfg oE pE startTime evs s))
  /\ (shouldStop (sharedState s) = true ->
      shouldStop (sharedState (exec cfg oE pE startTime evs s)) = true).
Proof.
  revert s. induction evs as [|ev evs IH]; intros s; simpl; [split; auto|].
  destruct (step_monotone ev s) as [A B].
  destruct (IH (step cfg oE pE startTime ev s)) as [C D].
  split; [lia | auto].
Qed.

(** *** The request numbers *)

Lemma LogInv_initial : LogInv (initialPool cfg).
Proof. split; simpl; constructor. Qed.

Lemma LogInv_step (ev : Event) (s : PoolState) :
  LogInv s -> LogInv (step cfg oE pE startTime ev s).
Proof.
  intros [Hr Hn]. unfold step.
  destruct (workers s !! ev_worker ev) as [[|n|]|]; try (now split).
  - destruct (loopHead_outcome cfg startTime (ev_worker ev) (ev_now ev) s);
      split; simpl; auto.
    + eapply Forall_impl; [exact Hr|]. simpl. intros; lia.
    + constructor; [lia|]. eapply Forall_impl; [exact Hr|]. simpl. intros; lia.
    + apply NoDup_cons. split; [|exact Hn].
      intros Hin. rewrite Forall_forall in Hr. specialize (Hr _ Hin). lia.
  - destruct (afterResults_rest oE pE (ev_worker ev) (ev_record ev) s) as (E1 & _ & E3).
    split; rewrite ?E1, ?E3; auto.
Qed.

Lemma reachable_LogInv (s : PoolState) :
  reachable cfg oE pE startTime s -> LogInv s.
Proof.
  apply reachable_ind; [apply LogInv_initial | intros; now apply LogInv_step].
Qed.

End PoolFacts.

(** C2. Along every run of the pool, a segment of a worker never lowers
    the request counter and never clears [shouldStop], here for one segment
    and for any number of them; and no reachable state, so none at
    completion, has both terminal reasons set. *)
Theorem shared_state_invariants (cfg : Config) (oE pE : bool) (startTime : Z)
    (s : PoolState) :
  reachable cfg oE pE startTime s ->
  (forall ev,
     requestCount (sharedState s)
       <= requestCount (sharedState (step cfg oE pE startTime ev s))
     /\ (shouldStop (sharedState s) = true ->
         shouldStop (sharedState (step cfg oE pE startTime ev s)) = true))
  /\ (forall evs,
        requestCount (sharedState s)
          <= requestCount (sharedState (exec cfg oE pE startTime evs s))
        /\ (shouldStop (sharedState s) = true ->
            shouldStop (sharedState (exec cfg oE pE startTime evs s)) = true))
  /\ ~ (maxRequestsReached (sharedState s) = true /\ timeLimit (sharedState s) = true).
Proof.
  intros R. split; [|split].
  - intros ev. apply step_monotone.
  - intros evs. apply exec_monotone.
  - intros [A B]. exact (stop_one s (reachable_StopInv cfg oE pE startTime s R) (conj B A)).
Qed.

(** The first segment of [fourByTen] takes the counter from 0 to 1. *)
Lemma shared_state_invariants_witness :
  requestCount (sharedState (initialPool fourByTen))
    <= requestCount (sharedState (step fourByTen true true 0 firstSegment
                                    (initialPool fourByTen))).
Proof.
  refine (proj1 (proj1 (shared_state_invariants fourByTen true true 0
                          (initialPool fourByTen) _) firstSegment)).
  exists []. reflexivity.
Defined.

(** *** Comparisons of the counter with a bound *)

Lemma Qle_bool_num_of_nat (a b : nat) :
  Qle_bool (num_of_nat a) (num_of_nat b) = Nat.leb a b.
Proof.
  unfold num_of_nat. destruct (Nat.leb_spec a b) as [H|H].
  - apply Qle_bool_iff. rewrite <- Zle_Qle. lia.
  - destruct (Qle_bool _ _) eqn:E; [|reflexivity].
    apply Qle_bool_iff in E. rewrite <- Zle_Qle in E. lia.
Qed.

Lemma truthy_num_of_nat (m : nat) : 1 <= m -> truthy (num_of_nat m) = true.
Proof.
  intros H. unfold truthy. destruct (Qeq_bool _ 0) eqn:E; [|reflexivity].
  apply Qeq_bool_eq in E. change 0%Q with (inject_Z 0) in E.
  apply (proj1 (inject_Z_injective _ _)) in E. lia.
Qed.

(** For a bound that is a positive integer the two tests of the loop are
    comparisons of natural numbers. *)
Lemma boundHit_ge_nat (m c : nat) :
  1 <= m -> boundHit (Some (num_of_nat m)) num_ge (num_of_nat c) = Nat.leb m c.
Proof.
  intros H. unfold boundHit, num_ge.
  now rewrite truthy_num_of_nat, Qle_bool_num_of_nat.
Qed.

Lemma boundHit_gt_nat (m c : nat) :
  1 <= m -> boundHit (Some (num_of_nat m)) num_gt (num_of_nat c) = negb (Nat.leb c m).
Proof.
  intros H. unfold boundHit, num_gt.
  now rewrite truthy_num_of_nat, Qle_bool_num_of_nat.
Qed.

(** A counter that has not reached a bound [M] is below its ceiling. *)
Lemma below_bound_ceiling (M : Q) (c : nat) :
  boundHit (Some M) num_ge (num_of_nat c) = false -> truthy M = true ->
  S c <= Z.to_nat (Qceiling M).
Proof.
  unfold boundHit, num_ge. intros H T. rewrite T in H. simpl in H.
  assert (L : (num_of_nat c < M)%Q).
  { apply Qnot_le_lt. intros A. apply Qle_bool_iff in A. congruence. }
  assert (C : (num_of_nat c < inject_Z (Qceiling M))%Q)
    by (eapply Qlt_le_trans; [exact L | apply Qle_ceiling]).
  unfold num_of_nat in C. rewrite <- Zlt_Qlt in C. lia.
Qed.

Lemma boundHit_absent (b : option Q) (cmp : Q -> Q -> bool) (x : Q) :
  truthy_opt b = false -> boundHit b cmp x = false.
Proof.
  unfold truthy_opt, boundHit. destruct b as [q|]; [|reflexivity].
  now intros ->.
Qed.

Lemma ceiling_num_of_nat (m : nat) : Z.to_nat (Qceiling (num_of_nat m)) = m.
Proof. unfold num_of_nat. rewrite Qceiling_Z. apply Nat2Z.id. Qed.

Section BoundedPool.

Variable cfg : Config.
Variables (oE pE : bool) (startTime : Z).

(** *** A configured maximum bounds the counter *)

Variable M : Q.
Hypothesis max_set : maxRequests cfg = Some M.
Hypothesis max_truthy : truthy M = true.



(** Every segment of a worker that is still in its loop uses up one of
    the segments the bound leaves. *)
Lemma segments_progress (ev : Event) (s : PoolState) (w : WorkerState) :
  requestCount (sharedState s) <= Z.to_nat (Qceiling M) ->
  workers s !! ev_worker ev = Some w -> w <> Finished ->
  segmentsBound (Z.to_nat (Qceiling M)) (step cfg oE pE startTime ev s)
  < segmentsBound (Z.to_nat (Qceiling M)) s.
Proof.
  intros H W NF. unfold step. rewrite W.
  destruct w as [|n|]; [| |contradiction].
  - destruct (loopHead_outcome cfg startTime (ev_worker ev) (ev_now ev) s)
      as [_|_|_ _|_ G _|_ G _]; unfold segmentsBound; simpl;
      try (rewrite max_set in G; apply below_bound_ceiling in G; [|exact max_truthy]);
      match goal with
      | |- context [total segmentsLeft (<[_ := ?w]> _)] =>
          pose proof (total_insert segmentsLeft _ _ _ w W) as T
      end; simpl in T; lia.
  - unfold segmentsBound.
    destruct (afterResults_rest oE pE (ev_worker ev) (ev_record ev) s) as (-> & -> & _).
    pose proof (total_insert segmentsLeft _ _ _ AtLoopHead W) as T. simpl in T. lia.
Qed.


End BoundedPool.

Lemma allFinished_awaiting (s : PoolState) :
  allFinished s = true -> awaiting (workers s) = 0.
Proof.
  unfold allFinished, awaiting, total.
  induction (workers s) as [|w ws IH]; simpl; [reflexivity|].
  destruct w; simpl; try discriminate. exact IH.
Qed.

Lemma allFinished_first (s : PoolState) :
  allFinished s = true -> 1 <= length (workers s) ->
  ~ Forall (fun w => w <> Finished) (workers s).
Proof.
  unfold allFinished. destruct (workers s) as [|w ws]; simpl; [lia|].
  destruct w; try discriminate. intros _ _ F. inversion F; congruence.
Qed.

Section CountedPool.

Variable cfg : Config.
Variables (oE pE : bool) (startTime : Z).

Lemma workers_length (s : PoolState) :
  reachable cfg oE pE startTime s -> length (workers s) = workerCount cfg.
Proof.
  revert s.
  apply (reachable_ind cfg oE pE startTime
           (fun s => length (workers s) = workerCount cfg)).
  - simpl. apply length_replicate.
  - intros ev s H. unfold step.
    destruct (workers s !! ev_worker ev) as [[|n|]|]; try exact H.
    + destruct (loopHead_outcome cfg startTime (ev_worker ev) (ev_now ev) s);
        simpl; now rewrite length_insert.
    + destruct (afterResults_rest oE pE (ev_worker ev) (ev_record ev) s) as (_ & -> & _).
      now rewrite length_insert.
Qed.

(** *** A maximum that is a positive integer *)

Variable m : nat.
Hypothesis max_is : maxRequests cfg = Some (num_of_nat m).
Hypothesis m_pos : 1 <= m.

Lemma CountInv_initial : CountInv m oE pE (initialPool cfg).
Proof.
  split; simpl; try lia; try discriminate.
  - destruct oE; [|reflexivity]. unfold awaiting, total.
    induction (workerCount cfg); simpl; auto.
  - destruct pE; [|reflexivity]. unfold awaiting, total.
    induction (workerCount cfg); simpl; auto.
Qed.

Lemma CountInv_step (ev : Event) (s : PoolState) :
  CountInv m oE pE s -> CountInv m oE pE (step cfg oE pE startTime ev s).
Proof.
  intros [Hle Hflag Ho Hp]. unfold step.
  destruct (workers s !! ev_worker ev) as [[|n|]|] eqn:W; try (now split).
  - pose proof (total_insert isAwaiting _ _ _ Finished W) as TF.
    pose proof (total_insert isAwaiting _ _ _
                  (AwaitingResults (S (requestCount (sharedState s)))) W) as TA.
    simpl in TF, TA. unfold awaiting in Ho, Hp.
    destruct (loopHead_outcome cfg startTime (ev_worker ev) (ev_now ev) s)
      as [_|_|_ G|_ G G'|_ G G'];
      try (rewrite max_is, boundHit_ge_nat in G by exact m_pos);
      try (rewrite max_is, boundHit_gt_nat in G' by exact m_pos);
      try (apply Nat.leb_le in G); try (apply Nat.leb_gt in G);
      try (apply Bool.negb_true_iff, Nat.leb_gt in G');
      try (apply Bool.negb_false_iff, Nat.leb_le in G');
      try lia;
      split; simpl; unfold awaiting;
      try match goal with |- context [if ?b then _ else _] => destruct b end;
      try lia; try (intros F; specialize (Hflag F); lia).
  - pose proof (total_insert isAwaiting _ _ _ AtLoopHead W) as T. simpl in T.
    unfold awaiting in Ho, Hp.
    destruct (afterResults_rest oE pE (ev_worker ev) (ev_record ev) s) as (E1 & E2 & _).
    split; rewrite ?E1, ?E2, ?afterResults_openai, ?afterResults_portkey; auto;
      unfold awaiting;
      match goal with |- context [if ?b then _ else _] => destruct b end;
      rewrite ?length_app; simpl; lia.
Qed.

Lemma reachable_CountInv (s : PoolState) :
  reachable cfg oE pE startTime s -> CountInv m oE pE s.
Proof.
  apply reachable_ind; [apply CountInv_initial | intros; now apply CountInv_step].
Qed.

(** When every worker has left its loop and the time limit did not fire,
    the counter stands at the maximum and every request is recorded. *)
Lemma pool_completion (s : PoolState) :
  reachable cfg oE pE startTime s ->
  1 <= workerCount cfg ->
  allFinished s = true ->
  timeLimit (sharedState s) = false ->
  requestCount (sharedState s) = m
  /\ maxRequestsReached (sharedState s) = true
  /\ length (results_openai s) = (if oE then m else 0)
  /\ length (results_portkey s) = (if pE then m else 0).
Proof.
  intros R C F T.
  destruct (reachable_CountInv s R) as [Hle Hflag Ho Hp].
  pose proof (reachable_StopInv cfg oE pE startTime s R) as [_ _ _ Hw Hf].
  pose proof (workers_length s R) as L.
  rewrite (allFinished_awaiting s F) in Ho, Hp.
  assert (S1 : shouldStop (sharedState s) = true).
  { destruct (shouldStop (sharedState s)) eqn:E; [reflexivity|].
    exfalso. apply (allFinished_first s F); [lia | now apply Hf]. }
  destruct (Hw S1) as [A|A]; [congruence|].
  specialize (Hflag A).
  repeat split; auto.
  - destruct oE; lia.
  - destruct pE; lia.
Qed.

End CountedPool.

Section UnboundedPool.

Variable cfg : Config.
Variables (oE pE : bool) (startTime : Z).
Hypothesis no_max : truthy_opt (maxRequests cfg) = false.
Hypothesis no_time : truthy_opt (testDuration cfg) = false.
Hypothesis a_worker : 1 <= workerCount cfg.


End UnboundedPool.

(** C1. With a maximum [m] of requests configured (a positive integer),
    in every state of the pool: the counter is at most [m]; it is exactly [m]
    once the flag of the maximum is set; the request numbers the workers
    captured lie between 1 and the counter and no two are equal; every
    segment of a worker still in its loop uses up one of at most [2 * m] plus
    the number of workers; and when every worker has finished without the
    time limit firing, the counter is [m] and every enabled provider has
    exactly [m] records. With four
    workers, a maximum of ten and a completer that answers at once, the event
    loop reaches that state: counter 10, ten records for each provider, the
    request numbers 1 to 10 once each. *)
Theorem pool_stops_at_max_requests :
  (forall (cfg : Config) (oE pE : bool) (startTime : Z) (m : nat) (s : PoolState),
     maxRequests cfg = Some (num_of_nat m) -> 1 <= m ->
     reachable cfg oE pE startTime s ->
     requestCount (sharedState s) <= m
     /\ (maxRequestsReached (sharedState s) = true -> requestCount (sharedState s) = m)
     /\ Forall (fun n => 1 <= n <= requestCount (sharedState s)) (List.map snd (started s))
     /\ NoDup (List.map snd (started s))
     /\ (forall ev w,
           workers s !! ev_worker ev = Some w -> w <> Finished ->
           segmentsBound m (step cfg oE pE startTime ev s) < segmentsBound m s)
     /\ (1 <= workerCount cfg -> allFinished s = true ->
         timeLimit (sharedState s) = false ->
         requestCount (sharedState s) = m
         /\ maxRequestsReached (sharedState s) = true
         /\ length (results_openai s) = (if oE then m else 0)
         /\ length (results_portkey s) = (if pE then m else 0)))
  /\ (let s := exec fourByTen true true 0 fourByTenSchedule (initialPool fourByTen) in
      concurrency fourByTen = Some 4%Q
      /\ maxRequests fourByTen = Some 10%Q
      /\ allFinished s = true
      /\ sharedState s = {| requestCount := 10; shouldStop := true;
                            maxRequestsReached := true; timeLimit := false |}
      /\ length (results_openai s) = 10
      /\ length (results_portkey s) = 10
      /\ Forall (fun r => success r = true) (results_openai s ++ results_portkey s)
      /\ List.map snd (started s) = rev (seq 1 10)
      /\ (let summary := generateReport fourByTen (results_openai s) (results_portkey s) in
          runBenchmark fourByTen bothProviders (probeWith fourByTen (fun _ => true))
            0 fourByTenSchedule
          = Completed [(OpenAI, PString "Hello"); (Portkey, PString "Hello")]
              s summary (printReport fourByTen summary)
          /\ totalRequests summary = 10
          /\ count (openaiStats summary) = 10
          /\ count (portkeyStats summary) = 10)).
Proof.
  split.
  - intros cfg oE pE startTime m s Hm Hpos R.
    destruct (reachable_CountInv cfg oE pE startTime m Hm Hpos s R) as [Hle Hflag _ _].
    destruct (reachable_LogInv cfg oE pE startTime s R) as [Hr Hn].
    split; [exact Hle|]. split; [exact Hflag|]. split; [exact Hr|]. split; [exact Hn|].
    split.
    + intros ev w W NF.
      pose proof (segments_progress cfg oE pE startTime (num_of_nat m) Hm
                    (truthy_num_of_nat m Hpos) ev s w) as P.
      rewrite ceiling_num_of_nat in P. now apply P.
    + now apply (pool_completion cfg oE pE startTime m Hm Hpos s R).
  - cbv zeta.
    split; [reflexivity|]. split; [reflexivity|].
    split; [vm_compute; reflexivity|]. split; [vm_compute; reflexivity|].
    split; [vm_compute; reflexivity|]. split; [vm_compute; reflexivity|].
    split; [vm_compute; repeat constructor|].
    split; [vm_compute; reflexivity|].
    split; [vm_compute; reflexivity|].
    split; [vm_compute; reflexivity|].
    split; vm_compute; reflexivity.
Qed.

(** The final state of the run of [fourByTen] is reachable, every worker
    has finished and the time limit did not fire. *)
Lemma pool_stops_at_max_requests_witness :
  requestCount
    (sharedState (exec fourByTen true true 0 fourByTenSchedule (initialPool fourByTen))) = 10
  /\ length (results_openai
               (exec fourByTen true true 0 fourByTenSchedule (initialPool fourByTen))) = 10.
Proof.
  destruct pool_stops_at_max_requests as [H _].
  destruct (H fourByTen true true 0%Z 10
              (exec fourByTen true true 0 fourByTenSchedule (initialPool fourByTen)))
    as (_ & _ & _ & _ & _ & C).
  - reflexivity.
  - lia.
  - exists fourByTenSchedule. reflexivity.
  - destruct C as (A & _ & B & _).
    + vm_compute. lia.
    + vm_compute. reflexivity.
    + vm_compute. reflexivity.
    + split; [exact A | exact B].
Defined.

(** ** The entry point *)

Lemma or_default_truthy (v : option Q) (d : Q) :
  truthy d = true -> truthy (or_default v d) = true.
Proof.
  intros H. destruct v as [q|]; simpl; [|exact H].
  unfold or_num. now destruct (truthy q) eqn:E.
Qed.



Lemma prepareConfig_defaults (config c : Config) :
  prepareConfig config = inr c -> c = setDefaults config.
Proof.
  unfold prepareConfig.
  repeat match goal with
         | |- context [if ?b then _ else _] => destruct b
         end; intros [= <-] || discriminate; reflexivity.
Qed.






(** * Further properties *)

(** ** Request executor *)

Lemma num_gt_zero_pos (t : Q) : num_gt t 0 = true -> (0 < t)%Q.
Proof.
  unfold num_gt. intros H. apply Qnot_le_lt. intros L.
  apply Qle_bool_iff in L. rewrite L in H. discriminate.
Qed.

Lemma positiveTime_spec (parseFloat : string -> option Q) (value : string) (t : Q) :
  positiveTime parseFloat value = Some t <-> parseFloat value = Some t /\ (0 < t)%Q.
Proof.
  unfold positiveTime. split.
  - destruct (parseFloat value) as [q|]; [|discriminate].
    destruct (num_gt q 0) eqn:E; [|discriminate].
    intros [= <-]. split; [reflexivity | now apply num_gt_zero_pos].
  - intros [-> H]. unfold num_gt.
    destruct (Qle_bool t 0) eqn:E; [|reflexivity].
    apply Qle_bool_iff in E. exfalso. apply (Qlt_not_le _ _ H E).
Qed.

Lemma probeNames_found (parseFloat : string -> option Q) (h : Headers)
    (names : list string) (t : Q) :
  probeNames parseFloat h names = Some t ->
  exists name value, In name names /\ headerValue h name = Some value
                     /\ positiveTime parseFloat value = Some t.
Proof.
  induction names as [|name rest IH]; simpl; [discriminate|].
  destruct (headerValue h name) as [value|] eqn:V.
  - destruct (positiveTime parseFloat value) as [q|] eqn:P.
    + intros [= <-]. exists name, value. auto.
    + intros H. destruct (IH H) as (n & v & I & A & B). exists n, v. auto.
  - intros H. destruct (IH H) as (n & v & I & A & B). exists n, v. auto.
Qed.

Lemma scanEntries_found (parseFloat : string -> option Q)
    (es : list (string * string)) (t : Q) :
  scanEntries parseFloat es = Some t ->
  exists key value, In (key, value) es
                    /\ includes (toLowerCase key) "processing" = true
                    /\ positiveTime parseFloat value = Some t.
Proof.
  induction es as [|[key value] rest IH]; simpl; [discriminate|].
  destruct (includes (toLowerCase key) "processing") eqn:K; simpl.
  - destruct (includes (toLowerCase key) "ms" || includes (toLowerCase key) "time").
    + destruct (positiveTime parseFloat value) as [q|] eqn:P.
      * intros [= <-]. exists key, value. auto.
      * intros H. destruct (IH H) as (k & v & I & A & B). exists k, v. auto.
    + intros H. destruct (IH H) as (k & v & I & A & B). exists k, v. auto.
  - intros H. destruct (IH H) as (k & v & I & A & B). exists k, v. auto.
Qed.

(** X1. A processing time that [extractOpenAIProcessingTime] returns is
    positive and is the value [parseFloat] gives for a header of the
    response: one of the candidate names, or an entry whose key contains
    "processing". *)
Theorem extracted_time_is_a_positive_header (parseFloat : string -> option Q)
    (resp : option RawResponse) (t : Q) :
  extractOpenAIProcessingTime parseFloat resp = Some t ->
  (0 < t)%Q
  /\ exists raw h value,
       resp = Some raw /\ headers raw = Some h /\ parseFloat value = Some t
       /\ ((exists name, In name processingTimeHeaders /\ headerValue h name = Some value)
           \/ (exists es key, headers_entries h = Some es /\ In (key, value) es
                              /\ includes (toLowerCase key) "processing" = true)).
Proof.
  unfold extractOpenAIProcessingTime.
  destruct resp as [raw|]; [|discriminate].
  destruct (headers raw) as [h|] eqn:Hh; [|discriminate].
  destruct (probeNames parseFloat h processingTimeHeaders) as [q|] eqn:E.
  - intros [= <-]. destruct (probeNames_found _ _ _ _ E) as (name & value & I & V & P).
    apply positiveTime_spec in P. destruct P as [P Pos].
    split; [exact Pos|]. exists raw, h, value. repeat split; auto. left. eauto.
  - destruct (headers_entries h) as [es|] eqn:He; [|discriminate].
    intros S. destruct (scanEntries_found _ _ _ S) as (key & value & I & K & P).
    apply positiveTime_spec in P. destruct P as [P Pos].
    split; [exact Pos|]. exists raw, h, value. repeat split; auto. right. eauto.
Qed.

Lemma extracted_time_is_a_positive_header_witness :
  (0 < 800)%Q.
Proof.
  exact (proj1 (extracted_time_is_a_positive_header parseDigits
                  (Some (plainResponse [("openai-processing-ms", "800")])) 800 eq_refl)).
Defined.

Lemma probeNames_skip (parseFloat : string -> option Q) (h : Headers)
    (before rest : list string) :
  (forall n value, In n before -> headerValue h n = Some value ->
                   positiveTime parseFloat value = None) ->
  probeNames parseFloat h (before ++ rest) = probeNames parseFloat h rest.
Proof.
  induction before as [|n before IH]; intros H; simpl; [reflexivity|].
  destruct (headerValue h n) as [value|] eqn:V.
  - rewrite (H n value (or_introl eq_refl) V). apply IH.
    intros m v I. apply H. now right.
  - apply IH. intros m v I. apply H. now right.
Qed.

(** X2. The candidate names are tried in their order: the first one
    whose header parses to a positive number gives the result, whatever the
    later candidates and the other entries hold; values that do not parse, or
    parse to zero or less, are passed over. *)
Theorem first_positive_candidate_wins (parseFloat : string -> option Q)
    (raw : RawResponse) (h : Headers) (before after : list string)
    (name value : string) (t : Q) :
  headers raw = Some h ->
  processingTimeHeaders = before ++ name :: after ->
  (forall n v, In n before -> headerValue h n = Some v ->
     match parseFloat v with Some x => (x <= 0)%Q | None => True end) ->
  headerValue h name = Some value ->
  parseFloat value = Some t -> (0 < t)%Q ->
  extractOpenAIProcessingTime parseFloat (Some raw) = Some t.
Proof.
  intros Hh Hnames Hbefore Hv Hp Hpos. unfold extractOpenAIProcessingTime.
  rewrite Hh, Hnames, probeNames_skip.
  - simpl. rewrite Hv.
    now rewrite (proj2 (positiveTime_spec parseFloat value t) (conj Hp Hpos)).
  - intros n v I V. specialize (Hbefore n v I V).
    destruct (positiveTime parseFloat v) as [x|] eqn:P; [|reflexivity].
    apply positiveTime_spec in P. destruct P as [P Pos]. rewrite P in Hbefore.
    exfalso. apply (Qlt_not_le _ _ Pos Hbefore).
Qed.

(** The second candidate is used when the first reports 0. *)
Lemma first_positive_candidate_wins_witness :
  extractOpenAIProcessingTime parseDigits
    (Some (plainResponse [("openai-processing-ms", "0");
                          ("x-openai-processing-ms", "250");
                          ("processing-time", "900")]))
  = Some 250%Q.
Proof.
  eapply (first_positive_candidate_wins parseDigits _ _ ["openai-processing-ms"]
            _ "x-openai-processing-ms" "250" 250).
  - reflexivity.
  - reflexivity.
  - intros n v [<-|[]]. intros [= <-]. vm_compute. discriminate.
  - reflexivity.
  - reflexivity.
  - reflexivity.
Defined.

(** X3. Whatever the outcome, a record of [makeRequest] carries the
    provider it was asked for and the time between the two clock readings.
    It is a success exactly when it has no error, and then the prompt was a
    string or an array; a failure has a message and the class computed from
    it. *)
Theorem makeRequest_outcome (parseFloat : string -> option Q) (cfg : Config)
    (client : Client) (pr : Prompt) (p : Provider) (t0 t1 : Z) (stamp : string) :
  let r := makeRequest parseFloat cfg client pr p t0 t1 stamp in
  provider r = p
  /\ totalTime r = inject_Z (t1 - t0)
  /\ timestamp r = stamp
  /\ (success r = true <-> error r = None)
  /\ (success r = true -> (exists s, pr = PString s) \/ (exists ms, pr = PMessages ms))
  /\ (success r = false ->
      exists message, error r = Some message
                      /\ errorType r = Some (classifyError message)).
Proof.
  intros r.
  destruct (makeRequest_cases parseFloat cfg client pr p t0 t1 stamp)
    as [[message E]|(Hs & Ht & _)]; fold r in E || fold r in Hs, Ht.
  - rewrite E. simpl. repeat split; try discriminate. eauto.
  - assert (A : provider r = p /\ timestamp r = stamp /\ error r = None
                /\ ((exists s, pr = PString s) \/ (exists ms, pr = PMessages ms))).
    { unfold r, makeRequest in *. destruct pr as [s|ms| |]; try discriminate.
      - destruct (client _); try discriminate. simpl. repeat split. left. eauto.
      - destruct (client _); try discriminate. simpl. repeat split. right. eauto. }
    destruct A as (A1 & A2 & A3 & A4).
    repeat split; auto; rewrite Hs; discriminate.
Qed.

(** X4. A model name that is empty, and a [maxTokens] or a [temperature]
    of 0, count as not configured: the request is the one made with the
    defaults (gpt-3.5-turbo, 100, 0.7), so the record is the same. *)
Theorem makeRequest_falsy_generation (parseFloat : string -> option Q)
    (cfg : Config) (client : Client) (pr : Prompt) (p : Provider) (t0 t1 : Z)
    (stamp : string) (tokens temp : Q) :
  (tokens == 0)%Q -> (temp == 0)%Q ->
  makeRequest parseFloat (withGeneration (Some "") (Some tokens) (Some temp) cfg)
    client pr p t0 t1 stamp
  = makeRequest parseFloat (withGeneration None None None cfg) client pr p t0 t1 stamp
  /\ makeRequest parseFloat (withGeneration None None None cfg) client pr p t0 t1 stamp
     = makeRequest parseFloat
         (withGeneration (Some "gpt-3.5-turbo") (Some 100%Q) (Some (7 # 10)%Q) cfg)
         client pr p t0 t1 stamp.
Proof.
  intros Hk Ht.
  assert (Fk : truthy tokens = false)
    by (unfold truthy; now rewrite (proj2 (Qeq_bool_iff tokens 0) Hk)).
  assert (Ft : truthy temp = false)
    by (unfold truthy; now rewrite (proj2 (Qeq_bool_iff temp 0) Ht)).
  split.
  - unfold makeRequest. simpl. unfold or_num. now rewrite Fk, Ft.
  - reflexivity.
Qed.

Lemma makeRequest_falsy_generation_witness :
  makeRequest parseDigits (withGeneration (Some "") (Some 0%Q) (Some 0%Q) fourByTen)
    (timedClient "800") (PString "Hello") OpenAI 0 1000 ""
  = makeRequest parseDigits (withGeneration None None None fourByTen)
      (timedClient "800") (PString "Hello") OpenAI 0 1000 "".
Proof.
  refine (proj1 (makeRequest_falsy_generation parseDigits fourByTen (timedClient "800")
                   (PString "Hello") OpenAI 0 1000 "" 0 0 _ _)); reflexivity.
Defined.

(** ** Preflight validator *)

(** X5. With a provider enabled, the preflight returns exactly when no
    probe of an enabled provider failed, whether or not the probes carry a
    processing time; the providers it then declares enabled for the load
    phase are those of the mode. With no provider enabled it makes no request
    and throws the error of all providers, with an empty list. *)
Theorem preflight_passes_iff (cfg : Config) (fl : Flags)
    (probe : Provider -> Prompt -> ProbeOutcome) :
  ((exists pre, snd (runPreflightTest cfg fl probe) = inr pre)
   <-> orb (shouldTestOpenAI fl) (shouldTestPortkey fl) = true
       /\ probeFailed cfg fl probe OpenAI = false
       /\ probeFailed cfg fl probe Portkey = false)
  /\ (forall pre, snd (runPreflightTest cfg fl probe) = inr pre ->
        openaiEnabled pre = shouldTestOpenAI fl
        /\ portkeyEnabled pre = shouldTestPortkey fl
        /\ testResults_openai pre
           = (if shouldTestOpenAI fl then Some (probe OpenAI (testPrompt cfg)) else None)
        /\ testResults_portkey pre
           = (if shouldTestPortkey fl then Some (probe Portkey (testPrompt cfg)) else None))
  /\ (shouldTestOpenAI fl = false -> shouldTestPortkey fl = false ->
      runPreflightTest cfg fl probe = ([], inl (AllProvidersFailed []))).
Proof.
  unfold runPreflightTest, probeFailed, succeeded.
  destruct fl as [o p]; simpl.
  destruct o, p; simpl;
    destruct (probeSuccess (probe OpenAI (testPrompt cfg))) eqn:SO;
    destruct (probeSuccess (probe Portkey (testPrompt cfg))) eqn:SP;
    simpl; (split; [split|split]);
    try solve [ intros [pre [=]] | intros (A & B & C); discriminate
              | intros pre [=] | intros; discriminate | reflexivity
              | intros _; eauto | intros pre [= <-]; repeat split
              | intros _; repeat split ].
Qed.

(** In comparison mode with the direct provider down the preflight does
    not return; with both up it enables both. *)
Lemma preflight_passes_iff_witness :
  exists pre,
    snd (runPreflightTest fourByTen bothProviders (probeWith fourByTen (fun _ => true)))
    = inr pre
    /\ openaiEnabled pre = true /\ portkeyEnabled pre = true.
Proof.
  destruct (preflight_passes_iff fourByTen bothProviders (probeWith fourByTen (fun _ => true)))
    as ((_ & P) & E & _).
  destruct P as [pre H]; [repeat split|].
  exists pre. split; [exact H|].
  destruct (E pre H) as (A & B & _). split; [exact A | exact B].
Defined.

(** X6. For the providers the constructor enables, a preflight that
    returns prints no warning exactly when every enabled probe carries a
    processing time; a missing time is never more than that warning. *)
Theorem preflight_warning_iff (cfg : Config) (fl : Flags)
    (probe : Provider -> Prompt -> ProbeOutcome) (pre : PreflightResult) :
  construct cfg = inr fl ->
  snd (runPreflightTest cfg fl probe) = inr pre ->
  (warning pre = None
   <-> (shouldTestOpenAI fl = true -> probeHasTime (probe OpenAI (testPrompt cfg)) = true)
       /\ probeHasTime (probe Portkey (testPrompt cfg)) = true)
  /\ (forall missing, warning pre = Some (ComparisonLessAccurate missing) ->
        modeOf cfg = "comparison"
        /\ missing = (if probeHasTime (probe OpenAI (testPrompt cfg)) then [] else ["OpenAI"])
                     ++ (if probeHasTime (probe Portkey (testPrompt cfg)) then []
                         else ["Portkey"]))
  /\ (forall name, warning pre = Some (LatencyLimited name) ->
        modeOf cfg = "loadtest" /\ name = "Portkey").
Proof.
  unfold construct, determineProvidersFromMode.
  destruct (String.eqb (modeOf cfg) "comparison") eqn:MC.
  - intros [= <-]. unfold runPreflightTest, succeeded, hasProcessingTime. simpl. rewrite MC.
    apply String.eqb_eq in MC.
    destruct (probeSuccess (probe OpenAI (testPrompt cfg)));
      destruct (probeSuccess (probe Portkey (testPrompt cfg))); simpl; try discriminate.
    destruct (probeHasTime (probe OpenAI (testPrompt cfg)));
      destruct (probeHasTime (probe Portkey (testPrompt cfg))); simpl;
      intros [= <-]; simpl; (split; [split|split]);
      try solve [ intros; discriminate | intros [A B]; discriminate
                | intros [A B]; specialize (A eq_refl); discriminate
                | intros; split; auto
                | intros missing [= <-]; split; [exact MC | reflexivity] ].
  - destruct (String.eqb (modeOf cfg) "loadtest") eqn:ML; [|discriminate].
    intros [= <-]. unfold runPreflightTest, succeeded, hasProcessingTime. simpl. rewrite MC.
    apply String.eqb_eq in ML.
    destruct (probeSuccess (probe Portkey (testPrompt cfg))); simpl; try discriminate.
    destruct (probeHasTime (probe Portkey (testPrompt cfg))); simpl;
      intros [= <-]; simpl; (split; [split|split]);
      try solve [ intros; discriminate | intros [A B]; discriminate
                | intros; split; auto; intros; discriminate
                | intros name [= <-]; split; [exact ML | reflexivity] ].
Qed.

(** Both probes report 800 ms: no warning. *)
Lemma preflight_warning_iff_witness :
  exists pre,
    snd (runPreflightTest fourByTen bothProviders (probeWith fourByTen (fun _ => true)))
    = inr pre
    /\ warning pre = None.
Proof.
  assert (E : exists pre,
             snd (runPreflightTest fourByTen bothProviders
                    (probeWith fourByTen (fun _ => true))) = inr pre)
    by (vm_compute; eexists; reflexivity).
  destruct E as [pre H]. exists pre. split; [exact H|].
  destruct (preflight_warning_iff fourByTen bothProviders
              (probeWith fourByTen (fun _ => true)) pre eq_refl H) as ((_ & W) & _).
  apply W. split; reflexivity.
Defined.

(** ** Worker pool *)

Lemma rev_seq_succ (n : nat) : rev (seq 1 (S n)) = S n :: rev (seq 1 n).
Proof. rewrite seq_S, rev_app_distr. reflexivity. Qed.

Lemma boundHit_false_lt (M : Q) (x : Q) :
  boundHit (Some M) num_ge x = false -> truthy M = true -> (x < M)%Q.
Proof.
  unfold boundHit, num_ge. intros H T. rewrite T in H. simpl in H.
  apply Qnot_le_lt. intros A. apply Qle_bool_iff in A. congruence.
Qed.

Lemma boundHit_gt_true (b : option Q) (x : Q) :
  boundHit b num_gt x = true ->
  exists M, b = Some M /\ truthy M = true /\ (M < x)%Q.
Proof.
  unfold boundHit, num_gt. destruct b as [M|]; [|discriminate].
  destruct (truthy M) eqn:T; [|discriminate]. simpl. intros H.
  exists M. split; [reflexivity|]. split; [exact T|].
  apply Qnot_le_lt. intros A. apply Qle_bool_iff in A.
  rewrite A in H. discriminate.
Qed.

Lemma boundHit_gt_false (M : Q) (x : Q) :
  boundHit (Some M) num_gt x = false -> truthy M = true -> (x <= M)%Q.
Proof.
  unfold boundHit, num_gt. intros H T. rewrite T in H. simpl in H.
  apply Qle_bool_iff. now destruct (Qle_bool x M).
Qed.

Section Rounds.

Variable cfg : Config.
Variables (oE pE : bool) (startTime : Z).

Lemma RoundsInv_initial : RoundsInv cfg oE pE (initialPool cfg).
Proof.
  split; simpl; auto.
  - destruct oE; [|reflexivity]. unfold awaiting, total.
    induction (workerCount cfg); simpl; auto.
  - destruct pE; [|reflexivity]. unfold awaiting, total.
    induction (workerCount cfg); simpl; auto.
Qed.

Lemma RoundsInv_step (ev : Event) (s : PoolState) :
  RoundsInv cfg oE pE s -> RoundsInv cfg oE pE (step cfg oE pE startTime ev s).
Proof.
  intros [Hn Hc Ho Hp]. unfold step.
  destruct (workers s !! ev_worker ev) as [[|n|]|] eqn:W; try (now split).
  - pose proof (total_insert isAwaiting _ _ _ Finished W) as TF.
    pose proof (total_insert isAwaiting _ _ _
                  (AwaitingResults (S (requestCount (sharedState s)))) W) as TA.
    simpl in TF, TA. unfold awaiting in Ho, Hp.
    destruct (loopHead_outcome cfg startTime (ev_worker ev) (ev_now ev) s)
      as [S1|S1|S1 G|S1 G G'|S1 G G'].
    + split; simpl; auto; unfold awaiting;
        match goal with |- if ?b then _ else _ => destruct b end; auto; lia.
    + assert (C : requestCount (sharedState s) = length (started s))
        by (destruct Hc as [C|(_ & F & _)]; [exact C | congruence]).
      split; simpl; auto; unfold awaiting;
        match goal with |- if ?b then _ else _ => destruct b end; auto; lia.
    + assert (C : requestCount (sharedState s) = length (started s))
        by (destruct Hc as [C|(_ & F & _)]; [exact C | congruence]).
      split; simpl; auto; unfold awaiting;
        match goal with |- if ?b then _ else _ => destruct b end; auto; lia.
    + assert (C : requestCount (sharedState s) = length (started s))
        by (destruct Hc as [C|(_ & F & _)]; [exact C | congruence]).
      split; simpl; auto.
      * right. repeat split; [lia|].
        destruct (boundHit_gt_true _ _ G') as (M & EM & TM & LM).
        exists M. split; [exact EM|]. rewrite <- C. split; [|exact LM].
        rewrite EM in G. now apply boundHit_false_lt.
      * unfold awaiting. destruct oE; auto; lia.
      * unfold awaiting. destruct pE; auto; lia.
    + assert (C : requestCount (sharedState s) = length (started s))
        by (destruct Hc as [C|(_ & F & _)]; [exact C | congruence]).
      split; simpl.
      * rewrite Hn, C. symmetry. apply rev_seq_succ.
      * left. lia.
      * unfold awaiting. destruct oE; auto; lia.
      * unfold awaiting. destruct pE; auto; lia.
  - pose proof (total_insert isAwaiting _ _ _ AtLoopHead W) as T. simpl in T.
    unfold awaiting in Ho, Hp.
    destruct (afterResults_rest oE pE (ev_worker ev) (ev_record ev) s) as (E1 & E2 & E3).
    split; rewrite ?E1, ?E2, ?E3, ?afterResults_openai, ?afterResults_portkey; auto;
      unfold awaiting;
      match goal with |- if ?b then _ else _ => destruct b end;
      rewrite ?length_app, ?app_nil_r; simpl; auto; lia.
Qed.

Lemma reachable_RoundsInv (s : PoolState) :
  reachable cfg oE pE startTime s -> RoundsInv cfg oE pE s.
Proof.
  apply reachable_ind; [apply RoundsInv_initial | intros; now apply RoundsInv_step].
Qed.

End Rounds.

(** X7. In every state of the pool, for every configuration, the requests
    started carry the numbers 1, 2, 3, ... in the order of their start,
    without a gap. The counter is the number of requests started, except
    after a worker counted past a maximum that is not an integer: then it is
    one more, the pool is stopped for the maximum, and no request has that
    number. With an integral maximum, or none, the two are equal. *)
Theorem request_numbers_are_consecutive (cfg : Config) (oE pE : bool)
    (startTime : Z) (s : PoolState) :
  reachable cfg oE pE startTime s ->
  List.map snd (started s) = rev (seq 1 (length (started s)))
  /\ (requestCount (sharedState s) = length (started s)
      \/ (requestCount (sharedState s) = S (length (started s))
          /\ shouldStop (sharedState s) = true
          /\ maxRequestsReached (sharedState s) = true
          /\ exists M, maxRequests cfg = Some M
                       /\ (num_of_nat (length (started s)) < M)%Q
                       /\ (M < num_of_nat (S (length (started s))))%Q))
  /\ (maxRequests cfg = None -> requestCount (sharedState s) = length (started s))
  /\ (forall m, maxRequests cfg = Some (num_of_nat m) ->
                requestCount (sharedState s) = length (started s)).
Proof.
  intros R. destruct (reachable_RoundsInv cfg oE pE startTime s R) as [Hn Hc _ _].
  split; [exact Hn|]. split; [exact Hc|]. split.
  - intros N. destruct Hc as [C|(_ & _ & _ & M & E & _)]; [exact C | congruence].
  - intros m Em. destruct Hc as [C|(_ & _ & _ & M & E & L & U)]; [exact C|].
    exfalso. rewrite Em in E. injection E as <-.
    unfold num_of_nat in L, U. rewrite <- Zlt_Qlt in L, U. lia.
Qed.

(** A maximum of two and a half: two requests, and the counter at 3. *)
Lemma request_numbers_are_consecutive_witness :
  List.map snd (started (exec halfRequest true true 0
                           (roundRobin 2 5 (fun _ => 0%Z) (instantRecord halfRequest 0))
                           (initialPool halfRequest)))
  = rev (seq 1 (length (started (exec halfRequest true true 0
                                   (roundRobin 2 5 (fun _ => 0%Z) (instantRecord halfRequest 0))
                                   (initialPool halfRequest))))).
Proof.
  refine (proj1 (request_numbers_are_consecutive halfRequest true true 0 _ _)).
  eexists. reflexivity.
Defined.

(** X8. No request is lost or recorded twice: in every state, for every
    configuration, the records of an enabled provider and the rounds in
    flight add up to the rounds started; a provider that is not enabled has no
    record; with both enabled the two collections have the same length; and
    when every worker has finished each enabled provider has one record for
    each round started. *)
Theorem every_round_is_recorded (cfg : Config) (oE pE : bool)
    (startTime : Z) (s : PoolState) :
  reachable cfg oE pE startTime s ->
  (if oE then length (results_openai s) + awaiting (workers s) = length (started s)
   else results_openai s = [])
  /\ (if pE then length (results_portkey s) + awaiting (workers s) = length (started s)
      else results_portkey s = [])
  /\ (oE = true -> pE = true -> length (results_openai s) = length (results_portkey s))
  /\ (allFinished s = true ->
      length (results_openai s) = (if oE then length (started s) else 0)
      /\ length (results_portkey s) = (if pE then length (started s) else 0)).
Proof.
  intros R. destruct (reachable_RoundsInv cfg oE pE startTime s R) as [_ _ Ho Hp].
  split; [exact Ho|]. split; [exact Hp|]. split.
  - intros -> ->. lia.
  - intros F. rewrite (allFinished_awaiting s F) in Ho, Hp.
    destruct oE, pE; rewrite ?Ho, ?Hp; simpl; split; lia.
Qed.

Lemma every_round_is_recorded_witness :
  length (results_openai (exec fourByTen true true 0 fourByTenSchedule (initialPool fourByTen)))
  = length (results_portkey (exec fourByTen true true 0 fourByTenSchedule
                               (initialPool fourByTen))).
Proof.
  refine (proj1 (proj2 (proj2 (every_round_is_recorded fourByTen true true 0 _ _))) eq_refl eq_refl).
  exists fourByTenSchedule. reflexivity.
Defined.

Section Stopping.

Variable cfg : Config.
Variables (oE pE : bool) (startTime : Z).

Lemma step_after_stop (ev : Event) (s : PoolState) :
  shouldStop (sharedState s) = true ->
  sharedState (step cfg oE pE startTime ev s) = sharedState s
  /\ started (step cfg oE pE startTime ev s) = started s.
Proof.
  intros S1. unfold step.
  destruct (workers s !! ev_worker ev) as [[|n|]|]; auto.
  - unfold loopHead. rewrite S1. auto.
  - destruct (afterResults_rest oE pE (ev_worker ev) (ev_record ev) s) as (-> & _ & ->).
    auto.
Qed.

Lemma step_keeps (ev : Event) (s : PoolState) :
  results_openai s `prefix_of` results_openai (step cfg oE pE startTime ev s)
  /\ results_portkey s `prefix_of` results_portkey (step cfg oE pE startTime ev s)
  /\ started s `suffix_of` started (step cfg oE pE startTime ev s)
  /\ length (workers (step cfg oE pE startTime ev s)) = length (workers s)
  /\ (forall i, workers s !! i = Some Finished ->
                workers (step cfg oE pE startTime ev s) !! i = Some Finished).
Proof.
  unfold step.
  destruct (workers s !! ev_worker ev) as [[|n|]|] eqn:W; try (repeat split; auto; done).
  - assert (K : forall w i, workers s !! i = Some Finished ->
                            <[ev_worker ev := w]> (workers s) !! i = Some Finished).
    { intros w i F. destruct (decide (ev_worker ev = i)) as [<-|N]; [congruence|].
      now rewrite list_lookup_insert_ne. }
    destruct (loopHead_outcome cfg startTime (ev_worker ev) (ev_now ev) s);
      simpl; rewrite ?length_insert; repeat split; auto;
      try done; now apply suffix_cons_r.
  - destruct (afterResults_rest oE pE (ev_worker ev) (ev_record ev) s) as (_ & E2 & E3).
    rewrite afterResults_openai, afterResults_portkey, E2, E3, length_insert.
    repeat split; auto; try (now apply prefix_app_r).
    intros i F. destruct (decide (ev_worker ev = i)) as [<-|N]; [congruence|].
    now rewrite list_lookup_insert_ne.
Qed.

End Stopping.

(** X9. Once [shouldStop] is set nothing is started any more: whatever
    segments follow, the shared state (counter and flags) and the list of
    requests started stay as they are. *)
Theorem nothing_starts_after_stop (cfg : Config) (oE pE : bool) (startTime : Z)
    (s : PoolState) (evs : list Event) :
  shouldStop (sharedState s) = true ->
  sharedState (exec cfg oE pE startTime evs s) = sharedState s
  /\ started (exec cfg oE pE startTime evs s) = started s.
Proof.
  revert s. induction evs as [|ev evs IH]; intros s S1; simpl; [auto|].
  destruct (step_after_stop cfg oE pE startTime ev s S1) as [A B].
  destruct (IH (step cfg oE pE startTime ev s)) as [C D]; [now rewrite A|].
  split; congruence.
Qed.

(** After the run of [fourByTen], seven more passes change nothing. *)
Lemma nothing_starts_after_stop_witness :
  started (exec fourByTen true true 0 fourByTenSchedule
             (exec fourByTen true true 0 fourByTenSchedule (initialPool fourByTen)))
  = started (exec fourByTen true true 0 fourByTenSchedule (initialPool fourByTen)).
Proof.
  refine (proj2 (nothing_starts_after_stop fourByTen true true 0 _ fourByTenSchedule _)).
  vm_compute. reflexivity.
Defined.

(** X10. The pool only ever adds: along any segments, the records of each
    provider are kept in place and new ones come after them, the requests
    started stay in the log, the number of workers does not change, and a
    worker that has finished stays finished. *)
Theorem pool_is_append_only (cfg : Config) (oE pE : bool) (startTime : Z)
    (evs : list Event) (s : PoolState) :
  results_openai s `prefix_of` results_openai (exec cfg oE pE startTime evs s)
  /\ results_portkey s `prefix_of` results_portkey (exec cfg oE pE startTime evs s)
  /\ started s `suffix_of` started (exec cfg oE pE startTime evs s)
  /\ length (workers (exec cfg oE pE startTime evs s)) = length (workers s)
  /\ (forall i, workers s !! i = Some Finished ->
                workers (exec cfg oE pE startTime evs s) !! i = Some Finished).
Proof.
  revert s. induction evs as [|ev evs IH]; intros s; simpl.
  - repeat split; auto.
  - destruct (step_keeps cfg oE pE startTime ev s) as (A1 & A2 & A3 & A4 & A5).
    destruct (IH (step cfg oE pE startTime ev s)) as (B1 & B2 & B3 & B4 & B5).
    repeat split.
    + now transitivity (results_openai (step cfg oE pE startTime ev s)).
    + now transitivity (results_portkey (step cfg oE pE startTime ev s)).
    + now transitivity (started (step cfg oE pE startTime ev s)).
    + congruence.
    + auto.
Qed.

(** Worker 0, finished after the run of [fourByTen], is still finished
    seven passes later. *)
Lemma pool_is_append_only_witness :
  workers (exec fourByTen true true 0 fourByTenSchedule
             (exec fourByTen true true 0 fourByTenSchedule (initialPool fourByTen))) !! 0
  = Some Finished.
Proof.
  refine (proj2 (proj2 (proj2 (proj2
            (pool_is_append_only fourByTen true true 0 fourByTenSchedule _)))) 0 _).
  vm_compute. reflexivity.
Defined.

Section Reasons.

Variable cfg : Config.
Variables (oE pE : bool) (startTime : Z).

Lemma flags_need_bounds_step (ev : Event) (s : PoolState) :
  (truthy_opt (testDuration cfg) = false -> timeLimit (sharedState s) = false) ->
  (truthy_opt (maxRequests cfg) = false -> maxRequestsReached (sharedState s) = false) ->
  (truthy_opt (testDuration cfg) = false ->
   timeLimit (sharedState (step cfg oE pE startTime ev s)) = false)
  /\ (truthy_opt (maxRequests cfg) = false ->
      maxRequestsReached (sharedState (step cfg oE pE startTime ev s)) = false).
Proof.
  intros HT HM. unfold step.
  destruct (workers s !! ev_worker ev) as [[|n|]|]; auto.
  - unfold loopHead.
    destruct (shouldStop (sharedState s)); [auto|].
    destruct (boundHit (testDuration cfg) num_ge _) eqn:T.
    { simpl. split; [|auto]. intros F. now rewrite boundHit_absent in T. }
    destruct (boundHit (maxRequests cfg) num_ge _) eqn:M1.
    { simpl. split; [auto|]. intros F. now rewrite boundHit_absent in M1. }
    destruct (boundHit (maxRequests cfg) num_gt _) eqn:M2.
    { simpl. split; [auto|]. intros F. now rewrite boundHit_absent in M2. }
    simpl. auto.
  - now destruct (afterResults_rest oE pE (ev_worker ev) (ev_record ev) s) as (-> & _).
Qed.

Lemma flags_need_bounds (s : PoolState) :
  reachable cfg oE pE startTime s ->
  (truthy_opt (testDuration cfg) = false -> timeLimit (sharedState s) = false)
  /\ (truthy_opt (maxRequests cfg) = false -> maxRequestsReached (sharedState s) = false).
Proof.
  revert s.
  apply (reachable_ind cfg oE pE startTime
           (fun s => (truthy_opt (testDuration cfg) = false ->
                      timeLimit (sharedState s) = false)
                     /\ (truthy_opt (maxRequests cfg) = false ->
                         maxRequestsReached (sharedState s) = false))).
  - split; reflexivity.
  - intros ev s [A B]. now apply flags_need_bounds_step.
Qed.

End Reasons.

(** X11. A terminal reason is only ever given for a bound that is
    configured: without a duration that counts as true the time-limit flag
    stays false, without such a maximum the flag of the maximum stays false.
    With neither, [shouldStop] is never set and no worker ever leaves its
    loop, so with at least one worker [runBenchmark] does not complete,
    whatever segments are run. *)
Theorem stop_reasons_need_bounds (cfg : Config) (oE pE : bool) (startTime : Z)
    (s : PoolState) :
  reachable cfg oE pE startTime s ->
  (truthy_opt (testDuration cfg) = false -> timeLimit (sharedState s) = false)
  /\ (truthy_opt (maxRequests cfg) = false -> maxRequestsReached (sharedState s) = false)
  /\ (truthy_opt (testDuration cfg) = false -> truthy_opt (maxRequests cfg) = false ->
      shouldStop (sharedState s) = false
      /\ Forall (fun w => w <> Finished) (workers s)
      /\ (1 <= workerCount cfg -> allFinished s = false)).
Proof.
  intros R. destruct (flags_need_bounds cfg oE pE startTime s R) as [HT HM].
  split; [exact HT|]. split; [exact HM|].
  intros NT NM. specialize (HT NT). specialize (HM NM).
  destruct (reachable_StopInv cfg oE pE startTime s R) as [_ _ _ Hw Hf].
  assert (S1 : shouldStop (sharedState s) = false).
  { destruct (shouldStop (sharedState s)); [|reflexivity].
    destruct (Hw eq_refl); congruence. }
  split; [exact S1|]. split; [now apply Hf|].
  intros C. destruct (allFinished s) eqn:F; [|reflexivity].
  exfalso. apply (allFinished_first s F); [|now apply Hf].
  rewrite (workers_length cfg oE pE startTime s R). exact C.
Qed.

(** One worker and no bound: still running after two segments. *)
Lemma stop_reasons_need_bounds_witness :
  allFinished (exec (poolConfig (Some 1%Q) None None) true true 0
                 [firstSegment; firstSegment]
                 (initialPool (poolConfig (Some 1%Q) None None))) = false.
Proof.
  refine (proj2 (proj2 (proj2 (proj2
            (stop_reasons_need_bounds (poolConfig (Some 1%Q) None None) true true 0 _ _))
            eq_refl eq_refl)) _).
  - eexists. reflexivity.
  - vm_compute. lia.
Defined.

(** X12. With a maximum [M] configured, every request started has a
    number of at most [M]: no more than the floor of [M] requests are started
    and recorded for a provider, none at all when [M] is below 1, although
    the counter may end one higher. *)
Theorem started_requests_within_maximum (cfg : Config) (oE pE : bool)
    (startTime : Z) (M : Q) (s : PoolState) :
  maxRequests cfg = Some M -> truthy M = true ->
  reachable cfg oE pE startTime s ->
  Forall (fun n => (num_of_nat n <= M)%Q) (List.map snd (started s))
  /\ length (started s) <= Z.to_nat (Qfloor M)
  /\ length (results_openai s) <= Z.to_nat (Qfloor M)
  /\ length (results_portkey s) <= Z.to_nat (Qfloor M)
  /\ ((M < 1)%Q -> started s = []).
Proof.
  intros EM TM R.
  assert (A : Forall (fun n => (num_of_nat n <= M)%Q) (List.map snd (started s))).
  { revert s R.
    apply (reachable_ind cfg oE pE startTime
             (fun s => Forall (fun n => (num_of_nat n <= M)%Q) (List.map snd (started s)))).
    - constructor.
    - intros ev s H. unfold step.
      destruct (workers s !! ev_worker ev) as [[|n|]|]; auto.
      + destruct (loopHead_outcome cfg startTime (ev_worker ev) (ev_now ev) s)
          as [_|_|_ _|_ _ _|_ _ G]; simpl; auto.
        constructor; [|exact H]. rewrite EM in G. now apply boundHit_gt_false.
      + now destruct (afterResults_rest oE pE (ev_worker ev) (ev_record ev) s)
          as (_ & _ & ->). }
  destruct (reachable_RoundsInv cfg oE pE startTime s R) as [Hn _ Ho Hp].
  assert (B : length (started s) <= Z.to_nat (Qfloor M)).
  { destruct (length (started s)) as [|k] eqn:L; [lia|].
    rewrite Hn, rev_seq_succ in A. inversion A as [|x l Hk _]; subst.
    apply Qfloor_resp_le in Hk. unfold num_of_nat in Hk. rewrite Qfloor_Z in Hk. lia. }
  split; [exact A|]. split; [exact B|].
  split; [|split].
  - destruct oE; [lia | rewrite Ho; simpl; lia].
  - destruct pE; [lia | rewrite Hp; simpl; lia].
  - intros L1. assert (Qfloor M <= 0)%Z.
    { assert (Qfloor M < 1)%Z; [|lia]. rewrite Zlt_Qlt.
      eapply Qle_lt_trans; [apply Qfloor_le | exact L1]. }
    destruct (started s); [reflexivity | simpl in B; lia].
Qed.

(** With a maximum of two and a half, two requests and the counter at 3. *)
Lemma started_requests_within_maximum_witness :
  length (started (exec halfRequest true true 0
                     (roundRobin 2 5 (fun _ => 0%Z) (instantRecord halfRequest 0))
                     (initialPool halfRequest))) <= 2.
Proof.
  refine (proj1 (proj2 (started_requests_within_maximum halfRequest true true 0 (5 # 2) _
                          eq_refl eq_refl _))).
  eexists. reflexivity.
Defined.

(** ** The run and its report *)

Lemma exec_no_workers (cfg : Config) (oE pE : bool) (startTime : Z)
    (evs : list Event) (s : PoolState) :
  workers s = [] -> exec cfg oE pE startTime evs s = s.
Proof.
  intros W. induction evs as [|ev evs IH]; [reflexivity|].
  change (exec cfg oE pE startTime (ev :: evs) s)
    with (exec cfg oE pE startTime evs (step cfg oE pE startTime ev s)).
  assert (E : step cfg oE pE startTime ev s = s) by (unfold step; now rewrite W).
  rewrite E. exact IH.
Qed.

Lemma worker_started_iff (c : Q) (i : nat) :
  i < Z.to_nat (Qceiling c) <-> (num_of_nat i < c)%Q.
Proof.
  unfold num_of_nat. split.
  - intros H. assert (L : (Z.of_nat i <= Qceiling c - 1)%Z) by lia.
    rewrite Zle_Qle in L. eapply Qle_lt_trans; [exact L | apply Qceiling_lt].
  - intros H. assert (L : (inject_Z (Z.of_nat i) < inject_Z (Qceiling c))%Q)
      by (eapply Qlt_le_trans; [exact H | apply Qle_ceiling]).
    rewrite <- Zlt_Qlt in L. lia.
Qed.

(** X13. Worker [i] is started exactly when [i] is below the configured
    concurrency. A concurrency that is absent, zero or negative starts no
    worker: after a preflight that passed, [runBenchmark] completes at once,
    without a request and with empty collections, and in comparison mode the
    printing of the report then fails on the absent comparison. *)
Theorem no_worker_no_request (cfg : Config) (fl : Flags)
    (probe : Provider -> Prompt -> ProbeOutcome) :
  (forall c i, concurrency cfg = Some c ->
               (i < length (workers (initialPool cfg)) <-> (num_of_nat i < c)%Q))
  /\ (concurrency cfg = None -> workers (initialPool cfg) = [])
  /\ (forall c, concurrency cfg = Some c -> (c <= 0)%Q -> workers (initialPool cfg) = [])
  /\ (workers (initialPool cfg) = [] ->
      forall pre, snd (runPreflightTest cfg fl probe) = inr pre ->
      forall startTime evs,
        runBenchmark cfg fl probe startTime evs
        = Completed (fst (runPreflightTest cfg fl probe)) (initialPool cfg)
            (generateReport cfg [] [])
            (if String.eqb (modeOf cfg) "comparison" then RenderTypeError
             else LoadTestTable zeroStats)
        /\ loadRounds (runBenchmark cfg fl probe startTime evs) = []).
Proof.
  assert (W : forall c, concurrency cfg = Some c ->
                        length (workers (initialPool cfg)) = Z.to_nat (Qceiling c)).
  { intros c E. simpl. rewrite length_replicate. unfold workerCount. now rewrite E. }
  split; [|split; [|split]].
  - intros c i E. rewrite (W c E). apply worker_started_iff.
  - intros E. simpl. unfold workerCount. now rewrite E.
  - intros c E L. specialize (W c E).
    assert (Z.to_nat (Qceiling c) = 0).
    { destruct (Z.to_nat (Qceiling c)) as [|k] eqn:K; [reflexivity|].
      assert (H : 0 < Z.to_nat (Qceiling c)) by lia.
      apply worker_started_iff in H. exfalso.
      apply (Qlt_not_le _ _ H). exact L. }
    destruct (workers (initialPool cfg)); [reflexivity | simpl in W; lia].
  - intros E pre P startTime evs. unfold runBenchmark.
    destruct (runPreflightTest cfg fl probe) as [probes [e|pre']]; simpl in P;
      [discriminate|].
    rewrite (exec_no_workers cfg _ _ startTime evs (initialPool cfg) E).
    unfold allFinished. rewrite E. simpl.
    split; [|reflexivity]. f_equal.
    unfold printReport. destruct (String.eqb (modeOf cfg) "comparison") eqn:M.
    + unfold generateReport. rewrite M. reflexivity.
    + reflexivity.
Qed.

(** A run with a concurrency of -1 in comparison mode. *)
Lemma no_worker_no_request_witness :
  runBenchmark (poolConfig (Some (-1)%Q) (Some 10%Q) None) bothProviders
    (probeWith (poolConfig (Some (-1)%Q) (Some 10%Q) None) (fun _ => true)) 0
    fourByTenSchedule
  = Completed [(OpenAI, PString "Hello"); (Portkey, PString "Hello")]
      (initialPool (poolConfig (Some (-1)%Q) (Some 10%Q) None))
      (generateReport (poolConfig (Some (-1)%Q) (Some 10%Q) None) [] [])
      RenderTypeError.
Proof.
  destruct (no_worker_no_request (poolConfig (Some (-1)%Q) (Some 10%Q) None) bothProviders
              (probeWith (poolConfig (Some (-1)%Q) (Some 10%Q) None) (fun _ => true)))
    as (_ & _ & Z & R).
  assert (E : exists pre,
             snd (runPreflightTest (poolConfig (Some (-1)%Q) (Some 10%Q) None) bothProviders
                    (probeWith (poolConfig (Some (-1)%Q) (Some 10%Q) None) (fun _ => true)))
             = inr pre)
    by (vm_compute; eexists; reflexivity).
  destruct E as [pre P].
  refine (proj1 (R (Z (-1)%Q eq_refl _) pre P 0%Z fourByTenSchedule)).
  discriminate.
Defined.

(** X14. The summary has a comparison exactly in comparison mode with a
    record for both providers. [printReport] fails exactly in comparison mode
    when a provider has no record; outside comparison mode it shows the
    statistics of the proxy. The total is the larger of the two numbers of
    records. *)
Theorem report_shape (cfg : Config) (openai portkey : list RequestRecord) :
  let s := generateReport cfg openai portkey in
  (comparison s <> None
   <-> modeOf cfg = "comparison" /\ openai <> [] /\ portkey <> [])
  /\ (printReport cfg s = RenderTypeError
      <-> modeOf cfg = "comparison" /\ (openai = [] \/ portkey = []))
  /\ (modeOf cfg <> "comparison" ->
      printReport cfg s = LoadTestTable (calculateStats portkey))
  /\ totalRequests s = Nat.max (length openai) (length portkey)
  /\ openaiStats s = calculateStats openai
  /\ portkeyStats s = calculateStats portkey.
Proof.
  intros s. unfold s, printReport, generateReport. simpl.
  destruct (String.eqb (modeOf cfg) "comparison") eqn:M.
  - apply String.eqb_eq in M.
    destruct openai as [|o openai], portkey as [|p portkey]; simpl;
      (split; [|split; [|split; [|repeat split]]]);
      intuition (congruence || discriminate).
  - apply String.eqb_neq in M. simpl.
    (split; [|split; [|split; [|repeat split]]]);
      intuition (congruence || discriminate).
Qed.

Lemma report_shape_witness :
  printReport (withMode (Some "loadtest") fourByTen)
    (generateReport (withMode (Some "loadtest") fourByTen) [] [timedOut Portkey])
  = LoadTestTable (calculateStats [timedOut Portkey]).
Proof.
  refine (proj1 (proj2 (proj2 (report_shape (withMode (Some "loadtest") fourByTen)
                                 [] [timedOut Portkey]))) _).
  discriminate.
Defined.



(** ** Statistics engine *)

Lemma Qle_bool_false_le (x y : Q) : Qle_bool x y = false -> (y <= x)%Q.
Proof.
  intros H. apply Qlt_le_weak, Qnot_le_lt. intros A.
  apply Qle_bool_iff in A. congruence.
Qed.

Lemma insertSorted_perm (x : Q) (l : list Q) : Permutation (insertSorted x l) (x :: l).
Proof.
  induction l as [|y l IH]; simpl; [reflexivity|].
  destruct (Qle_bool x y); [reflexivity|].
  rewrite IH. apply perm_swap.
Qed.

Lemma insertSorted_sorted (x : Q) (l : list Q) :
  StronglySorted Qle l -> StronglySorted Qle (insertSorted x l).
Proof.
  induction 1 as [|y l S IH F]; simpl.
  - repeat constructor.
  - destruct (Qle_bool x y) eqn:E.
    + apply Qle_bool_iff in E. constructor; [now constructor|].
      constructor; [exact E|].
      eapply Forall_impl; [exact F|]. simpl. intros z Hz. now apply Qle_trans with y.
    + apply Qle_bool_false_le in E. constructor; [exact IH|].
      rewrite (insertSorted_perm x l). now constructor.
Qed.

Lemma sortAscending_perm (l : list Q) : Permutation (sortAscending l) l.
Proof.
  unfold sortAscending. induction l as [|x l IH]; simpl; [reflexivity|].
  rewrite insertSorted_perm. now constructor.
Qed.

Lemma sortAscending_sorted (l : list Q) : StronglySorted Qle (sortAscending l).
Proof.
  unfold sortAscending. induction l as [|x l IH]; simpl; [constructor|].
  now apply insertSorted_sorted.
Qed.

(** X16. [sortAscending], the sort of the total times, returns the same
    values in ascending order, so as many; it leaves an array that is already
    ascending as it is. *)
Theorem sortAscending_sorts (l : list Q) :
  Permutation (sortAscending l) l
  /\ StronglySorted Qle (sortAscending l)
  /\ length (sortAscending l) = length l
  /\ (StronglySorted Qle l -> sortAscending l = l).
Proof.
  split; [apply sortAscending_perm|]. split; [apply sortAscending_sorted|].
  split; [apply Permutation_length, sortAscending_perm|].
  unfold sortAscending. induction 1 as [|x l S IH F]; simpl; [reflexivity|].
  rewrite IH. destruct l as [|y l]; [reflexivity|]. simpl.
  inversion F as [|? ? L _]; subst.
  apply Qle_bool_iff in L. now rewrite L.
Qed.

Lemma sortAscending_sorts_witness :
  sortAscending [10; 20; 30]%Q = [10; 20; 30]%Q.
Proof.
  refine (proj2 (proj2 (proj2 (sortAscending_sorts [10; 20; 30]%Q))) _).
  repeat constructor; discriminate.
Defined.

Lemma sorted_lookup_le (l : list Q) (i j : nat) (a b : Q) :
  StronglySorted Qle l -> i <= j -> l !! i = Some a -> l !! j = Some b -> (a <= b)%Q.
Proof.
  intros S. revert i j. induction S as [|x l S IH F]; intros i j Hij Ha Hb.
  - destruct i; discriminate.
  - destruct i as [|i], j as [|j]; simpl in *; try lia.
    + injection Ha as <-. injection Hb as <-. apply Qle_refl.
    + injection Ha as <-. rewrite Forall_forall in F. apply F.
      eapply list_elem_of_lookup_2. exact Hb.
    + apply (IH i j); auto. lia.
Qed.

(** The value of a percentile between 0 and 100 of a non-empty array, by
    the elements next to its index. *)
Lemma percentile_value (a : list Q) (p : Q) :
  1 <= length a -> (0 <= p)%Q -> (p <= 100)%Q ->
  let index := (p / 100 * num_of_nat (length a - 1))%Q in
  exists lo hi,
    a !! Z.to_nat (Qfloor index) = Some lo
    /\ a !! Z.to_nat (Qceiling index) = Some hi
    /\ calculatePercentile a p
       = Some (if Z.eqb (Qfloor index) (Qceiling index) then lo
               else lo * (1 - (index - inject_Z (Qfloor index)))
                    + hi * (index - inject_Z (Qfloor index)))%Q.
Proof.
  intros Hn H0 H100 index.
  destruct (percentile_floor_ceiling_range p (length a - 1) H0 H100) as (F0 & FC & CN).
  fold index in F0, FC, CN.
  destruct (lookup_lt_is_Some_2 a (Z.to_nat (Qfloor index))) as [lo Hlo]; [lia|].
  destruct (lookup_lt_is_Some_2 a (Z.to_nat (Qceiling index))) as [hi Hhi]; [lia|].
  exists lo, hi. split; [exact Hlo|]. split; [exact Hhi|].
  destruct (Nat.eq_dec (length a) 1) as [N1|N1].
  - destruct a as [|x [|y rest]]; simpl in N1, Hn; try lia.
    assert (I0 : (index == inject_Z 0)%Q).
    { unfold index. simpl length. change (num_of_nat (1 - 1)) with 0%Q.
      change (inject_Z 0) with 0%Q. ring. }
    destruct (integral_floor_ceiling index 0 I0) as [Fk Ck].
    rewrite Fk in Hlo. simpl in Hlo. injection Hlo as <-.
    rewrite Fk, Ck. reflexivity.
  - rewrite calculatePercentile_long by lia. cbv zeta. fold index.
    destruct (Z.eqb (Qfloor index) (Qceiling index)).
    + rewrite at_index_nonneg by lia. exact Hlo.
    + rewrite !at_index_nonneg by lia. now rewrite Hlo, Hhi.
Qed.

Lemma fraction_bounds (x : Q) :
  (0 <= x - inject_Z (Qfloor x))%Q /\ (x - inject_Z (Qfloor x) <= 1)%Q.
Proof.
  pose proof (Qfloor_le x) as A. pose proof (Qlt_floor x) as B.
  rewrite inject_Z_plus in B. change (inject_Z 1) with 1%Q in B. split; lra.
Qed.

Lemma interpolation_between (lo hi w : Q) :
  (lo <= hi)%Q -> (0 <= w)%Q -> (w <= 1)%Q ->
  (lo <= lo * (1 - w) + hi * w)%Q /\ (lo * (1 - w) + hi * w <= hi)%Q.
Proof.
  intros L W0 W1.
  assert (A : (0 <= (hi - lo) * w)%Q) by (apply Qmult_le_0_compat; lra).
  assert (B : (0 <= (hi - lo) * (1 - w))%Q) by (apply Qmult_le_0_compat; lra).
  split.
  - assert (E : (lo * (1 - w) + hi * w == lo + (hi - lo) * w)%Q) by ring.
    rewrite E. lra.
  - assert (E : (lo * (1 - w) + hi * w == hi - (hi - lo) * (1 - w))%Q) by ring.
    rewrite E. lra.
Qed.

Lemma ceiling_le_floor_succ (x : Q) : (Qceiling x <= Qfloor x + 1)%Z.
Proof.
  pose proof (Qceiling_lt x) as A. pose proof (Qlt_floor x) as B.
  assert (C : (inject_Z (Qceiling x - 1) < inject_Z (Qfloor x + 1))%Q)
    by (eapply Qlt_trans; eauto).
  rewrite <- Zlt_Qlt in C. lia.
Qed.

(** The percentile of an ascending array lies between the elements next
    to its index. *)
Lemma percentile_between (a : list Q) (p : Q) :
  StronglySorted Qle a ->
  1 <= length a -> (0 <= p)%Q -> (p <= 100)%Q ->
  let index := (p / 100 * num_of_nat (length a - 1))%Q in
  exists lo hi v,
    a !! Z.to_nat (Qfloor index) = Some lo
    /\ a !! Z.to_nat (Qceiling index) = Some hi
    /\ calculatePercentile a p = Some v
    /\ (lo <= v)%Q /\ (v <= hi)%Q.
Proof.
  intros S Hn H0 H100 index.
  destruct (percentile_value a p Hn H0 H100) as (lo & hi & Hlo & Hhi & E).
  fold index in Hlo, Hhi, E.
  destruct (percentile_floor_ceiling_range p (length a - 1) H0 H100) as (F0 & FC & CN).
  fold index in F0, FC, CN.
  assert (L : (lo <= hi)%Q).
  { apply (sorted_lookup_le a (Z.to_nat (Qfloor index)) (Z.to_nat (Qceiling index)));
      auto. lia. }
  eexists lo, hi, _. split; [exact Hlo|]. split; [exact Hhi|]. split; [exact E|].
  destruct (Z.eqb (Qfloor index) (Qceiling index)).
  - split; [apply Qle_refl | exact L].
  - destruct (fraction_bounds index) as [W0 W1].
    now apply interpolation_between.
Qed.

Lemma percentile_index_monotone (p q : Q) (m : nat) :
  (p <= q)%Q -> (p / 100 * num_of_nat m <= q / 100 * num_of_nat m)%Q.
Proof.
  intros H. apply Qmult_le_compat_r; [|apply num_of_nat_nonneg].
  unfold Qdiv. apply Qmult_le_compat_r; [exact H | discriminate].
Qed.

(** On an ascending array a higher percentile is not smaller. *)
Lemma percentile_monotone (a : list Q) (p q : Q) :
  StronglySorted Qle a ->
  1 <= length a -> (0 <= p)%Q -> (p <= q)%Q -> (q <= 100)%Q ->
  exists vp vq,
    calculatePercentile a p = Some vp /\ calculatePercentile a q = Some vq
    /\ (vp <= vq)%Q.
Proof.
  intros S Hn H0 Hpq H100.
  assert (Hp100 : (p <= 100)%Q) by lra. assert (Hq0 : (0 <= q)%Q) by lra.
  set (ip := (p / 100 * num_of_nat (length a - 1))%Q).
  set (iq := (q / 100 * num_of_nat (length a - 1))%Q).
  assert (I : (ip <= iq)%Q) by now apply percentile_index_monotone.
  destruct (percentile_floor_ceiling_range p (length a - 1) H0 Hp100) as (F0 & FC & CN).
  destruct (percentile_floor_ceiling_range q (length a - 1) Hq0 H100) as (G0 & GC & DN).
  fold ip in F0, FC, CN. fold iq in G0, GC, DN.
  pose proof (Qfloor_resp_le _ _ I) as FF. pose proof (Qceiling_resp_le _ _ I) as CC.
  pose proof (ceiling_le_floor_succ ip) as P1. pose proof (ceiling_le_floor_succ iq) as Q1.
  destruct (Z_le_gt_dec (Qceiling ip) (Qfloor iq)) as [Far|Near].
  - destruct (percentile_between a p S Hn H0 Hp100) as (lo & hi & vp & _ & Hhi & Ep & _ & U).
    destruct (percentile_between a q S Hn Hq0 H100) as (lo' & hi' & vq & Hlo' & _ & Eq' & L & _).
    fold ip in Hhi. fold iq in Hlo'.
    exists vp, vq. split; [exact Ep|]. split; [exact Eq'|].
    apply Qle_trans with hi; [exact U|]. apply Qle_trans with lo'; [|exact L].
    apply (sorted_lookup_le a (Z.to_nat (Qceiling ip)) (Z.to_nat (Qfloor iq))); auto. lia.
  - assert (Ef : Qfloor iq = Qfloor ip) by lia.
    assert (Ec : Qceiling iq = Qceiling ip) by lia.
    assert (Ne : Qfloor ip <> Qceiling ip) by lia.
    destruct (percentile_value a p Hn H0 Hp100) as (lo & hi & Hlo & Hhi & Ep).
    destruct (percentile_value a q Hn Hq0 H100) as (lo' & hi' & Hlo' & Hhi' & Eq').
    fold ip in Hlo, Hhi, Ep. fold iq in Hlo', Hhi', Eq'.
    rewrite Ef in Hlo', Eq'. rewrite Ec in Hhi', Eq'.
    assert (lo' = lo) by congruence. assert (hi' = hi) by congruence. subst lo' hi'.
    apply Z.eqb_neq in Ne. rewrite Ne in Ep, Eq'.
    eexists _, _. split; [exact Ep|]. split; [exact Eq'|].
    assert (L : (lo <= hi)%Q).
    { apply (sorted_lookup_le a (Z.to_nat (Qfloor ip)) (Z.to_nat (Qceiling ip))); auto. lia. }
    assert (D : (0 <= (hi - lo) * (iq - ip))%Q) by (apply Qmult_le_0_compat; lra).
    assert (E : (lo * (1 - (iq - inject_Z (Qfloor ip))) + hi * (iq - inject_Z (Qfloor ip))
                 == lo * (1 - (ip - inject_Z (Qfloor ip))) + hi * (ip - inject_Z (Qfloor ip))
                    + (hi - lo) * (iq - ip))%Q) by ring.
    rewrite E. lra.
Qed.





Lemma sum_acc (l : list Q) (a : Q) : (fold_left Qplus l a == a + sum l)%Q.
Proof.
  unfold sum. revert a. induction l as [|x l IH]; intros a; simpl; [ring|].
  rewrite (IH (a + x)%Q), (IH (0 + x)%Q). ring.
Qed.

Lemma sum_cons (x : Q) (l : list Q) : (sum (x :: l) == x + sum l)%Q.
Proof. unfold sum at 1. simpl. rewrite sum_acc. ring. Qed.


Lemma num_of_nat_succ (n : nat) : (num_of_nat (S n) == num_of_nat n + 1)%Q.
Proof.
  unfold num_of_nat. rewrite Nat2Z.inj_succ, <- Z.add_1_r, inject_Z_plus. reflexivity.
Qed.


Lemma num_of_nat_pos (n : nat) : 1 <= n -> (0 < num_of_nat n)%Q.
Proof.
  intros H. unfold num_of_nat. change 0%Q with (inject_Z 0). rewrite <- Zlt_Qlt. lia.
Qed.

Lemma sum_bounds (lo hi : Q) (l : list Q) :
  Forall (fun x => (lo <= x)%Q /\ (x <= hi)%Q) l ->
  (num_of_nat (length l) * lo <= sum l)%Q /\ (sum l <= num_of_nat (length l) * hi)%Q.
Proof.
  induction 1 as [|x l [A B] _ [IH1 IH2]].
  - simpl length. change (num_of_nat 0) with 0%Q. change (sum []) with 0%Q. split; lra.
  - simpl length. rewrite sum_cons, num_of_nat_succ. split.
    + assert (E : ((num_of_nat (length l) + 1) * lo == num_of_nat (length l) * lo + lo)%Q)
        by ring. rewrite E. lra.
    + assert (E : ((num_of_nat (length l) + 1) * hi == num_of_nat (length l) * hi + hi)%Q)
        by ring. rewrite E. lra.
Qed.

Lemma average_bounds (lo hi : Q) (l : list Q) :
  1 <= length l ->
  Forall (fun x => (lo <= x)%Q /\ (x <= hi)%Q) l ->
  (lo <= average l)%Q /\ (average l <= hi)%Q.
Proof.
  intros Hn F. destruct (sum_bounds lo hi l F) as [A B].
  pose proof (num_of_nat_pos (length l) Hn) as P. unfold average. split.
  - apply Qle_shift_div_l; [exact P|]. rewrite Qmult_comm. exact A.
  - apply Qle_shift_div_r; [exact P|]. rewrite Qmult_comm. exact B.
Qed.

Lemma or_default_some (x : Q) : (or_default (Some x) 0 == x)%Q.
Proof.
  simpl. unfold or_num, truthy. destruct (Qeq_bool x 0) eqn:E; simpl; [|reflexivity].
  apply Qeq_bool_eq in E. now rewrite E.
Qed.


Lemma filter_success_some (results : list RequestRecord) :
  (exists r, In r results /\ success r = true) ->
  1 <= length (List.filter success results).
Proof.
  intros (r & I & S). assert (F : In r (List.filter success results))
    by (apply filter_In; auto).
  destruct (List.filter success results); [contradiction | simpl; lia].
Qed.

(** The fields of the statistics of a collection with a success. *)
Lemma calculateStats_fields (results : list RequestRecord) :
  1 <= length (List.filter success results) ->
  let ok := List.filter success results in
  let times := sortAscending (List.map totalTime ok) in
  let s := calculateStats results in
  count s = length results
  /\ successfulCount s = Some (length ok)
  /\ failedCount s = Some (length (List.filter (fun r => negb (success r)) results))
  /\ successRate s = (num_of_nat (length ok) / num_of_nat (length results) * 100)%Q
  /\ failureRate s
     = (num_of_nat (length (List.filter (fun r => negb (success r)) results))
        / num_of_nat (length results) * 100)%Q
  /\ avgTotalTime s = average times
  /\ avgOpenAITime s = averageOrZero (omap openaiProcessingTime ok)
  /\ avgNetworkLatency s = averageOrZero (omap networkLatency ok)
  /\ medianTotalTime s = calculatePercentile times 50
  /\ p95TotalTime s = calculatePercentile times 95
  /\ p99TotalTime s = calculatePercentile times 99
  /\ minTotalTime s = or_default (times !! 0) 0
  /\ maxTotalTime s = or_default (times !! (length times - 1)) 0.
Proof.
  intros H ok times s. unfold s, calculateStats. fold ok.
  destruct (Nat.eqb_spec (length ok) 0) as [E|E]; [unfold ok in E; lia|].
  repeat split.
Qed.



Lemma sorted_first_last (a : list Q) (x : Q) :
  StronglySorted Qle a -> In x a ->
  exists first last,
    a !! 0 = Some first /\ a !! (length a - 1) = Some last
    /\ (first <= x)%Q /\ (x <= last)%Q.
Proof.
  intros S I. apply list_elem_of_In, list_elem_of_lookup_1 in I. destruct I as [i Hi].
  pose proof (lookup_lt_Some _ _ _ Hi) as Li.
  destruct (lookup_lt_is_Some_2 a 0) as [first Hf]; [lia|].
  destruct (lookup_lt_is_Some_2 a (length a - 1)) as [last Hl]; [lia|].
  exists first, last. repeat split; auto.
  - apply (sorted_lookup_le a 0 i); auto. lia.
  - apply (sorted_lookup_le a i (length a - 1)); auto. lia.
Qed.

(** The sorted total times of the successes of a collection. *)
Lemma success_times (results : list RequestRecord) :
  let times := sortAscending (List.map totalTime (List.filter success results)) in
  StronglySorted Qle times
  /\ length times = length (List.filter success results)
  /\ (forall x, In x times <->
                exists r, In r results /\ success r = true /\ totalTime r = x).
Proof.
  intros times. split; [apply sortAscending_sorted|]. split.
  - unfold times. rewrite (Permutation_length (sortAscending_perm _)). apply length_map.
  - intros x. unfold times. split.
    + intros I. apply (Permutation_in _ (sortAscending_perm _)) in I.
      apply in_map_iff in I. destruct I as (r & E & I). apply filter_In in I.
      exists r. tauto.
    + intros (r & I & S & E).
      apply (Permutation_in _ (Permutation_sym (sortAscending_perm _))).
      apply in_map_iff. exists r. split; [exact E|]. apply filter_In. auto.
Qed.

(** X20. For a collection with at least one success, the minimum and
    the maximum are total times of successful records, every successful total
    time lies between them, and so does the average total time. *)
Theorem stats_minimum_and_maximum (results : list RequestRecord) :
  (exists r, In r results /\ success r = true) ->
  let s := calculateStats results in
  (forall r, In r results -> success r = true ->
             (minTotalTime s <= totalTime r)%Q /\ (totalTime r <= maxTotalTime s)%Q)
  /\ (exists r, In r results /\ success r = true /\ (totalTime r == minTotalTime s)%Q)
  /\ (exists r, In r results /\ success r = true /\ (totalTime r == maxTotalTime s)%Q)
  /\ (minTotalTime s <= avgTotalTime s)%Q
  /\ (avgTotalTime s <= maxTotalTime s)%Q.
Proof.
  intros Hex s. pose proof (filter_success_some results Hex) as H1.
  destruct (calculateStats_fields results H1)
    as (_ & _ & _ & _ & _ & Ea & _ & _ & _ & _ & _ & Emin & Emax).
  fold s in Ea, Emin, Emax.
  destruct (success_times results) as (S & L & M).
  set (times := sortAscending (List.map totalTime (List.filter success results))) in *.
  destruct (lookup_lt_is_Some_2 times 0) as [first Hf]; [lia|].
  destruct (lookup_lt_is_Some_2 times (length times - 1)) as [last Hl]; [lia|].
  rewrite Hf in Emin. rewrite Hl in Emax.
  pose proof (or_default_some first) as Qmin. pose proof (or_default_some last) as Qmax.
  rewrite <- Emin in Qmin. rewrite <- Emax in Qmax.
  assert (B : forall x, In x times -> (first <= x)%Q /\ (x <= last)%Q).
  { intros x I. destruct (sorted_first_last times x S I) as (f & l & Hf' & Hl' & A & C).
    rewrite Hf in Hf'. rewrite Hl in Hl'. injection Hf' as <-. injection Hl' as <-. auto. }
  split; [|split; [|split]].
  - intros r I Sr. rewrite Qmin, Qmax. apply B. apply M. eauto.
  - assert (I : In first times) by (apply list_elem_of_In; eapply list_elem_of_lookup_2; eauto).
    apply M in I. destruct I as (r & I & Sr & E). exists r. repeat split; auto.
    rewrite E, Qmin. reflexivity.
  - assert (I : In last times) by (apply list_elem_of_In; eapply list_elem_of_lookup_2; eauto).
    apply M in I. destruct I as (r & I & Sr & E). exists r. repeat split; auto.
    rewrite E, Qmax. reflexivity.
  - rewrite Ea, Qmin, Qmax. apply average_bounds; [lia|].
    apply Forall_forall. intros x I. apply B. now apply list_elem_of_In.
Qed.

Lemma stats_minimum_and_maximum_witness :
  (minTotalTime (calculateStats [timedRecord Portkey 1000 "800"; timedRecord Portkey 1206 "800"])
   <= avgTotalTime (calculateStats [timedRecord Portkey 1000 "800";
                                    timedRecord Portkey 1206 "800"]))%Q.
Proof.
  refine (proj1 (proj2 (proj2 (proj2
            (stats_minimum_and_maximum [timedRecord Portkey 1000 "800";
                                        timedRecord Portkey 1206 "800"] _))))).
  exists (timedRecord Portkey 1000 "800"). split; [left; reflexivity | reflexivity].
Defined.

(** X21. For a collection with at least one success the three
    percentiles have values, in order between the minimum and the maximum:
    minimum, median, 95th, 99th, maximum. *)
Theorem stats_percentiles_ordered (results : list RequestRecord) :
  (exists r, In r results /\ success r = true) ->
  let s := calculateStats results in
  exists median p95 p99,
    medianTotalTime s = Some median /\ p95TotalTime s = Some p95
    /\ p99TotalTime s = Some p99
    /\ (minTotalTime s <= median)%Q /\ (median <= p95)%Q
    /\ (p95 <= p99)%Q /\ (p99 <= maxTotalTime s)%Q.
Proof.
  intros Hex s. pose proof (filter_success_some results Hex) as H1.
  destruct (calculateStats_fields results H1)
    as (_ & _ & _ & _ & _ & _ & _ & _ & Em & E95 & E99 & Emin & Emax).
  fold s in Em, E95, E99, Emin, Emax.
  destruct (success_times results) as (S & L & _).
  set (times := sortAscending (List.map totalTime (List.filter success results))) in *.
  assert (Hn : 1 <= length times) by lia.
  destruct (percentile_monotone times 50 95 S Hn) as (v50 & v95 & A50 & A95 & M1);
    try discriminate.
  destruct (percentile_monotone times 95 99 S Hn) as (v95' & v99 & B95 & B99 & M2);
    try discriminate.
  assert (v95' = v95) by congruence. subst v95'.
  destruct (percentile_between times 50 S Hn) as (lo & _ & w50 & Hlo & _ & C50 & Lo & _);
    try discriminate.
  destruct (percentile_between times 99 S Hn) as (_ & hi & w99 & _ & Hhi & C99 & _ & Hi);
    try discriminate.
  assert (w50 = v50) by congruence. assert (w99 = v99) by congruence. subst w50 w99.
  destruct (percentile_floor_ceiling_range 50 (length times - 1)) as (F0 & _ & _);
    try discriminate.
  destruct (percentile_floor_ceiling_range 99 (length times - 1)) as (_ & _ & CN);
    try discriminate.
  destruct (lookup_lt_is_Some_2 times 0) as [first Hf]; [lia|].
  destruct (lookup_lt_is_Some_2 times (length times - 1)) as [last Hl]; [lia|].
  rewrite Hf in Emin. rewrite Hl in Emax.
  pose proof (or_default_some first) as Qmin. pose proof (or_default_some last) as Qmax.
  rewrite <- Emin in Qmin. rewrite <- Emax in Qmax.
  exists v50, v95, v99. rewrite Em, E95, E99. repeat split; auto.
  - rewrite Qmin. apply Qle_trans with lo; [|exact Lo].
    apply (sorted_lookup_le times 0
             (Z.to_nat (Qfloor (50 / 100 * num_of_nat (length times - 1))))); auto. lia.
  - rewrite Qmax. apply Qle_trans with hi; [exact Hi|].
    apply (sorted_lookup_le times
             (Z.to_nat (Qceiling (99 / 100 * num_of_nat (length times - 1))))
             (length times - 1)); auto. lia.
Qed.

Lemma stats_percentiles_ordered_witness :
  exists median p95,
    medianTotalTime (calculateStats [timedRecord Portkey 1000 "800";
                                     timedRecord Portkey 1206 "800"]) = Some median
    /\ p95TotalTime (calculateStats [timedRecord Portkey 1000 "800";
                                     timedRecord Portkey 1206 "800"]) = Some p95
    /\ (median <= p95)%Q.
Proof.
  destruct (stats_percentiles_ordered [timedRecord Portkey 1000 "800";
                                       timedRecord Portkey 1206 "800"])
    as (median & p95 & p99 & A & B & _ & _ & C & _).
  - exists (timedRecord Portkey 1000 "800"). split; [left; reflexivity | reflexivity].
  - exists median, p95. auto.
Defined.







(** ** The entry point *)

(** X23. [main] accepts a configuration exactly when it has a prompt
    (a non-empty string or any array) and, in comparison mode, both keys, or,
    in loadtest mode, the key of the proxy. The prompt is checked first, then
    the mode, then the key of the proxy before the key of the direct
    provider. *)
Theorem prepareConfig_accepts_iff (config : Config) :
  ((exists c, prepareConfig config = inr c)
   <-> promptPresent (prompt config) = true
       /\ ((modeOf config = "comparison"
            /\ present (portkeyApiKey config) = true
            /\ present (openaiApiKey config) = true)
           \/ (modeOf config = "loadtest" /\ present (portkeyApiKey config) = true)))
  /\ (promptPresent (prompt config) = false -> prepareConfig config = inl MissingPrompt)
  /\ (promptPresent (prompt config) = true ->
      modeOf config <> "comparison" -> modeOf config <> "loadtest" ->
      prepareConfig config = inl (InvalidMode (modeOf config)))
  /\ (promptPresent (prompt config) = true ->
      present (portkeyApiKey config) = false ->
      (modeOf config = "comparison" ->
       prepareConfig config = inl (MissingKey "portkeyApiKey" "comparison"))
      /\ (modeOf config = "loadtest" ->
          prepareConfig config = inl (MissingKey "portkeyApiKey" "loadtest")))
  /\ (promptPresent (prompt config) = true ->
      modeOf config = "comparison" ->
      present (portkeyApiKey config) = true ->
      present (openaiApiKey config) = false ->
      prepareConfig config = inl (MissingKey "openaiApiKey" "comparison")).
Proof.
  unfold prepareConfig.
  destruct (promptPresent (prompt config)) eqn:P; simpl.
  2: { split; [split; [intros [c A]; discriminate | intros [A _]; discriminate]|].
       repeat split; intros; congruence. }
  destruct (String.eqb (modeOf config) "comparison") eqn:MC.
  - apply String.eqb_eq in MC.
    destruct (present (portkeyApiKey config)) eqn:KP;
      destruct (present (openaiApiKey config)) eqn:KO; simpl;
      (split; [split|]); try solve [ intros [c H]; discriminate
                                   | intros; eauto
                                   | intros (_ & [(_ & A & B)|(A & _)]); congruence
                                   | repeat split; intros; congruence ].
  - assert (NC : modeOf config <> "comparison") by now apply String.eqb_neq.
    destruct (String.eqb (modeOf config) "loadtest") eqn:ML.
    + apply String.eqb_eq in ML.
      destruct (present (portkeyApiKey config)) eqn:KP; simpl;
        (split; [split|]); try solve [ intros [c H]; discriminate
                                     | intros; eauto
                                     | intros (_ & [(A & _)|(_ & A)]); congruence
                                     | repeat split; intros; congruence ].
    + assert (NL : modeOf config <> "loadtest") by now apply String.eqb_neq.
      (split; [split|]); try solve [ intros [c H]; discriminate
                                   | intros (_ & [(A & _)|(A & _)]); congruence
                                   | repeat split; intros; congruence ].
Qed.

(** Load-test mode needs no key for the direct provider. *)
Lemma prepareConfig_accepts_iff_witness :
  exists c,
    prepareConfig
      {| mode := Some "loadtest"; prompt := PMessages []; model := None;
         maxTokens := None; temperature := None; concurrency := None;
         maxRequests := None; testDuration := None; openaiApiKey := None;
         portkeyApiKey := Some "pk-test" |} = inr c.
Proof.
  apply (proj2 (proj1 (prepareConfig_accepts_iff _))).
  split; [reflexivity|]. right. split; reflexivity.
Defined.

Lemma or_default_idempotent (v : option Q) (d : Q) :
  truthy d = true -> or_default (Some (or_default v d)) d = or_default v d.
Proof.
  intros H. simpl. unfold or_num at 1. now rewrite (or_default_truthy v d H).
Qed.

(** X24. A configuration that [main] accepts always constructs: the
    constructor enables the proxy, and the direct provider in comparison
    mode only, and [main] reports the error of the preflight or the outcome
    of the run on the configuration with the defaults. Setting the defaults
    a second time changes nothing. *)
Theorem accepted_configuration_runs (config c : Config) :
  prepareConfig config = inr c ->
  c = setDefaults config
  /\ setDefaults c = c
  /\ modeOf c = modeOf config
  /\ construct c
     = inr (if String.eqb (modeOf config) "comparison" then bothProviders else portkeyOnly)
  /\ (forall probe startTime evs,
        main config probe startTime evs
        = match runBenchmark c
                  (if String.eqb (modeOf config) "comparison" then bothProviders
                   else portkeyOnly) probe startTime evs with
          | Aborted _ e => inl e
          | o => inr o
          end).
Proof.
  intros H. pose proof (prepareConfig_defaults config c H) as ->.
  assert (I : setDefaults (setDefaults config) = setDefaults config).
  { transitivity
      {| mode := mode config;
         prompt := prompt config;
         model := model config;
         maxTokens := maxTokens config;
         temperature := temperature config;
         concurrency := Some (or_default (Some (or_default (concurrency config) 5)) 5);
         maxRequests := Some (or_default (Some (or_default (maxRequests config) 100)) 100);
         testDuration := Some (or_default (Some (or_default (testDuration config) 60)) 60);
         openaiApiKey := openaiApiKey config;
         portkeyApiKey := portkeyApiKey config |}; [reflexivity|].
    rewrite !or_default_idempotent by reflexivity. reflexivity. }
  assert (C : construct (setDefaults config)
              = inr (if String.eqb (modeOf config) "comparison" then bothProviders
                     else portkeyOnly)).
  { unfold construct, determineProvidersFromMode.
    change (modeOf (setDefaults config)) with (modeOf config).
    destruct (String.eqb (modeOf config) "comparison") eqn:MC; [reflexivity|].
    destruct (String.eqb (modeOf config) "loadtest") eqn:ML; [reflexivity|].
    exfalso. unfold prepareConfig in H. rewrite MC, ML in H.
    destruct (negb (promptPresent (prompt config))); discriminate. }
  repeat split; auto.
  intros probe startTime evs. unfold main. now rewrite H, C.
Qed.

Lemma accepted_configuration_runs_witness :
  construct (setDefaults fourByTen) = inr bothProviders.
Proof.
  exact (proj1 (proj2 (proj2 (proj2
           (accepted_configuration_runs fourByTen (setDefaults fourByTen) eq_refl))))).
Defined.

(** ** Report file *)

Lemma occurs_append (c : ascii) (s1 s2 : string) :
  occurs c (s1 ++ s2) = orb (occurs c s1) (occurs c s2).
Proof.
  induction s1 as [|d s1 IH]; simpl; [reflexivity|].
  rewrite IH. now rewrite Bool.orb_assoc.
Qed.

Lemma replaceColonDot_clean (c : ascii) :
  Ascii.eqb ":" (replaceColonDot c) = false /\ Ascii.eqb "." (replaceColonDot c) = false.
Proof.
  unfold replaceColonDot.
  destruct (Ascii.eqb c ":") eqn:A; [split; reflexivity|].
  destruct (Ascii.eqb c ".") eqn:B; [split; reflexivity|].
  cbn [orb]. split; rewrite Ascii.eqb_sym; assumption.
Qed.

Lemma dashed_clean (s : string) :
  occurs ":" (dashed s) = false /\ occurs "." (dashed s) = false.
Proof.
  induction s as [|c s [IH1 IH2]]; [split; reflexivity|].
  destruct (replaceColonDot_clean c) as [A B].
  cbn [dashed occurs]. now rewrite A, B, IH1, IH2.
Qed.

Lemma dashed_length (s : string) : String.length (dashed s) = String.length s.
Proof. induction s as [|c s IH]; simpl; congruence. Qed.

Lemma dashed_unchanged (s : string) :
  occurs ":" s = false -> occurs "." s = false -> dashed s = s.
Proof.
  induction s as [|c s IH]; [reflexivity|]. cbn [dashed occurs].
  intros A B. apply Bool.orb_false_iff in A, B. destruct A as [A1 A2], B as [B1 B2].
  rewrite IH by assumption. unfold replaceColonDot.
  rewrite Ascii.eqb_sym in A1. rewrite Ascii.eqb_sym in B1.
  now rewrite A1, B1.
Qed.

(** X25. The name of the report file has the length of the time stamp
    plus 23, contains no colon, and no dot but the one of its extension:
    the colons and dots of the time stamp are replaced one for one by dashes,
    the other characters are kept. *)
Theorem report_filename_is_clean (stamp : string) :
  occurs ":" (reportFilename stamp) = false
  /\ (exists body, reportFilename stamp = (body ++ ".json")%string
                   /\ occurs "." body = false)
  /\ String.length (reportFilename stamp) = String.length stamp + 23
  /\ dashed (dashed stamp) = dashed stamp
  /\ (occurs ":" stamp = false -> occurs "." stamp = false ->
      reportFilename stamp = ("benchmark_results_" ++ stamp ++ ".json")%string).
Proof.
  destruct (dashed_clean stamp) as [C D]. unfold reportFilename.
  split; [|split; [|split; [|split]]].
  - rewrite !occurs_append, C. reflexivity.
  - exists ("benchmark_results_" ++ dashed stamp)%string. split.
    + clear. simpl. reflexivity.
    + rewrite occurs_append, D. reflexivity.
  - rewrite !length_append, dashed_length. simpl. lia.
  - now apply dashed_unchanged.
  - intros A B. now rewrite dashed_unchanged.
Qed.

Lemma report_filename_is_clean_witness :
  reportFilename "2024-01-02T03-04-05-678Z"
  = "benchmark_results_2024-01-02T03-04-05-678Z.json".
Proof.
  refine (proj2 (proj2 (proj2 (proj2
            (report_filename_is_clean "2024-01-02T03-04-05-678Z")))) _ _);
    reflexivity.
Defined.

(** A preflight that returns has enabled a provider. *)
Lemma preflight_enabled_some (cfg : Config) (fl : Flags)
    (probe : Provider -> Prompt -> ProbeOutcome) (pre : PreflightResult) :
  snd (runPreflightTest cfg fl probe) = inr pre ->
  openaiEnabled pre = true \/ portkeyEnabled pre = true.
Proof.
  unfold runPreflightTest, succeeded.
  destruct fl as [o p]; simpl.
  destruct o, p; simpl;
    destruct (probeSuccess (probe OpenAI (testPrompt cfg)));
    destruct (probeSuccess (probe Portkey (testPrompt cfg)));
    simpl; intros [= <-]; simpl; auto.
Qed.

(** ** Completion *)

(** X26. When every worker has left its loop, and there is at least one,
    exactly one terminal reason is set: with no maximum configured it is the
    time limit, with no duration configured it is the maximum. So the run
    ends with neither reason only when there is no worker at all. *)
Theorem completion_has_one_reason (cfg : Config) (oE pE : bool) (startTime : Z)
    (s : PoolState) :
  reachable cfg oE pE startTime s ->
  allFinished s = true ->
  1 <= workerCount cfg ->
  shouldStop (sharedState s) = true
  /\ xorb (timeLimit (sharedState s)) (maxRequestsReached (sharedState s)) = true
  /\ (truthy_opt (maxRequests cfg) = false -> timeLimit (sharedState s) = true)
  /\ (truthy_opt (testDuration cfg) = false -> maxRequestsReached (sharedState s) = true).
Proof.
  intros R F C.
  destruct (reachable_StopInv cfg oE pE startTime s R) as [_ _ H1 Hw Hf].
  destruct (flags_need_bounds cfg oE pE startTime s R) as [HT HM].
  assert (S1 : shouldStop (sharedState s) = true).
  { destruct (shouldStop (sharedState s)) eqn:E; [reflexivity|].
    exfalso. apply (allFinished_first s F); [|now apply Hf].
    rewrite (workers_length cfg oE pE startTime s R). exact C. }
  specialize (Hw S1).
  destruct (timeLimit (sharedState s)) eqn:T, (maxRequestsReached (sharedState s)) eqn:M;
    simpl.
  - exfalso. apply H1. auto.
  - repeat split; auto. intros A. specialize (HT A). discriminate.
  - repeat split; auto. intros A. specialize (HM A). discriminate.
  - destruct Hw; discriminate.
Qed.

Lemma completion_has_one_reason_witness :
  maxRequestsReached
    (sharedState (exec fourByTen true true 0 fourByTenSchedule (initialPool fourByTen)))
  = true.
Proof.
  refine (proj2 (proj2 (proj2
            (completion_has_one_reason fourByTen true true 0 _ _ _ _))) eq_refl).
  - exists fourByTenSchedule. reflexivity.
  - vm_compute. reflexivity.
  - vm_compute. lia.
Defined.

(** X27. When [runBenchmark] completes, the preflight had passed, every
    worker has finished, and the report is computed from the records of the
    pool: its total is the number of requests the workers started, which
    carry the numbers from 1 up to that total. *)
Theorem completed_run_reports_every_request (cfg : Config) (fl : Flags)
    (probe : Provider -> Prompt -> ProbeOutcome) (startTime : Z) (evs : list Event)
    (probes : list (Provider * Prompt)) (s : PoolState) (summary : Summary)
    (rendering : Rendering) :
  runBenchmark cfg fl probe startTime evs = Completed probes s summary rendering ->
  (exists pre, runPreflightTest cfg fl probe = (probes, inr pre)
               /\ s = exec cfg (openaiEnabled pre) (portkeyEnabled pre) startTime evs
                        (initialPool cfg))
  /\ allFinished s = true
  /\ summary = generateReport cfg (results_openai s) (results_portkey s)
  /\ rendering = printReport cfg summary
  /\ totalRequests summary = length (started s)
  /\ loadRounds (runBenchmark cfg fl probe startTime evs) = seq 1 (totalRequests summary).
Proof.
  intros H. unfold runBenchmark in H.
  destruct (runPreflightTest cfg fl probe) as [probes' [e|pre]] eqn:P; [discriminate|].
  destruct (allFinished _) eqn:F; [|discriminate].
  injection H as <- <- <- <-.
  set (s := exec cfg (openaiEnabled pre) (portkeyEnabled pre) startTime evs (initialPool cfg))
    in *.
  assert (R : reachable cfg (openaiEnabled pre) (portkeyEnabled pre) startTime s)
    by (exists evs; reflexivity).
  destruct (reachable_RoundsInv cfg _ _ startTime s R) as [Hn _ Ho Hp].
  rewrite (allFinished_awaiting s F) in Ho, Hp.
  assert (E : orb (openaiEnabled pre) (portkeyEnabled pre) = true).
  { destruct (preflight_enabled_some cfg fl probe pre) as [A|A];
      [now rewrite P | rewrite A; reflexivity | rewrite A; apply Bool.orb_true_r]. }
  assert (T : Nat.max (length (results_openai s)) (length (results_portkey s))
              = length (started s)).
  { destruct (openaiEnabled pre), (portkeyEnabled pre); try discriminate;
      rewrite ?Ho, ?Hp; simpl; lia. }
  split; [eauto|]. split; [exact F|]. split; [reflexivity|]. split; [reflexivity|].
  split; [exact T|].
  unfold runBenchmark. rewrite P. fold s. rewrite F. simpl loadRounds.
  simpl totalRequests. rewrite T, Hn, rev_involutive. reflexivity.
Qed.

Lemma completed_run_reports_every_request_witness :
  totalRequests
    (generateReport fourByTen
       (results_openai (exec fourByTen true true 0 fourByTenSchedule (initialPool fourByTen)))
       (results_portkey (exec fourByTen true true 0 fourByTenSchedule (initialPool fourByTen))))
  = length (started (exec fourByTen true true 0 fourByTenSchedule (initialPool fourByTen))).
Proof.
  refine (proj1 (proj2 (proj2 (proj2 (proj2
            (completed_run_reports_every_request fourByTen bothProviders
               (probeWith fourByTen (fun _ => true)) 0 fourByTenSchedule
               [(OpenAI, PString "Hello"); (Portkey, PString "Hello")]
               _ _ (printReport fourByTen
                      (generateReport fourByTen
                         (results_openai (exec fourByTen true true 0 fourByTenSchedule
                                            (initialPool fourByTen)))
                         (results_portkey (exec fourByTen true true 0 fourByTenSchedule
                                             (initialPool fourByTen))))) _)))))).
  vm_compute. reflexivity.
Defined.
